(** * flashcontainer.a2lwriter: the A2L calibration-description emitter

    A shallow embedding of [src/flashcontainer/a2lwriter.py] and of the
    parts of [flashcontainer.datamodel] and [flashcontainer.byteconv] it
    calls, followed by the properties of the emitted text.

    Python values are modelled as follows:
    - [str] is a sequence of Unicode code points, [list N];
    - [int] is [Z];
    - [float] is a binary64 value, [PrimFloat.float];
    - [bytes] is [list byte];
    - the options [dict] is a [gmap string pyval];
    - an exception aborts the current hook and the whole run; the text
      written before it stays in the file. *)

From Stdlib Require Import ZArith NArith Lia List Bool Ascii String.
From Stdlib Require Import Strings.Byte Strings.HexString.
From Stdlib Require Import Numbers.DecimalString Numbers.DecimalZ.
From Stdlib Require Import Floats.PrimFloat.
From stdpp Require Import base option gmap strings.
Import ListNotations.

#[local] Set Warnings "-inexact-float".
#[local] Open Scope Z_scope.
#[local] Open Scope list_scope.

(** ** Python text *)

(** A Python [str]: the list of its code points. *)
Abbreviation text := (list N).

(** A string literal of the source (ASCII only) as Python text. *)
Definition str (s : string) : text := map N_of_ascii (list_ascii_of_string s).

(** The inverse direction, for texts within Latin-1. *)
Definition unstr (t : text) : string := string_of_list_ascii (map ascii_of_N t).

(** The two escapes of the source's literals: newline and double quote. *)
Definition nl : text := [10%N].
Definition dq : text := [34%N].

(** [str(z)] and the [{z}] of an f-string, for an [int]. *)
Definition py_str_int (z : Z) : text := str (NilZero.string_of_int (Z.to_int z)).

(** [hex(z)]: [0x] and lower-case digits, the sign in front. *)
Definition py_hex (z : Z) : text := str (HexString.of_Z z).

(** The value a hexadecimal literal denotes. *)
Definition hex_value (t : text) : Z := HexString.to_Z (unstr t).

(** ** [str.splitlines] *)

(** The line boundaries of [str.splitlines]: LF, VT, FF, CR, FS, GS, RS,
    NEL, LINE SEPARATOR and PARAGRAPH SEPARATOR. *)
Definition is_linebreak (c : N) : bool :=
  ((10 <=? c) && (c <=? 13) || (28 <=? c) && (c <=? 30)
   || (c =? 133) || (c =? 8232) || (c =? 8233))%N.

(** [s.splitlines()]: the lines without their boundaries; CR LF is one
    boundary; a boundary at the very end opens no further line, so the
    empty text has no line at all. *)
Fixpoint splitlines (s : text) : list text :=
  match s with
  | [] => []
  | c :: rest =>
      if is_linebreak c then
        match rest with
        | d :: rest' =>
            if ((c =? 13) && (d =? 10))%N then [] :: splitlines rest'
            else [] :: splitlines rest
        | [] => [[]]
        end
      else
        match splitlines rest with
        | [] => [[c]]
        | l :: ls => (c :: l) :: ls
        end
  end.

(** ** Python numbers *)

(** The numbers of the type table: an [int] or a [float]. *)
Inductive pynum : Type :=
  | PyI (z : Z)
  | PyF (f : float).

(** [int(n / e)] for two non-negative [int]s, [e] positive. True division
    yields the binary64 value nearest to the quotient (ties to even), and
    [int] truncates it. [rne_div a b] is [a / b] rounded to the nearest
    integer, ties to even. The quotient is rounded at 53 significant bits:
    with [k] the bit length of its integer part, on the grid of step
    [2^(k-53)]. The operands here are a length, below 2^63, and an element
    size, so the quotient is always within the range of a float. *)
Definition rne_div (a b : Z) : Z :=
  let q := a / b in
  let r := a mod b in
  if 2 * r <? b then q
  else if b <? 2 * r then q + 1
  else if Z.even q then q else q + 1.

Definition bit_length (q : Z) : Z := if q =? 0 then 0 else Z.log2 q + 1.

Definition int_truediv (n e : Z) : Z :=
  let k := bit_length (n / e) in
  if k <=? 53 then rne_div (n * 2 ^ (53 - k)) e / 2 ^ (53 - k)
  else rne_div n (e * 2 ^ (k - 53)) * 2 ^ (k - 53).

(** ** The data model, [flashcontainer.datamodel] *)

Module DM.

(** Modelled from the spec: the closed enumeration [ParamType] of
    section 3; the source names its members in [_TYPE_MAPPING]. *)
Inductive ParamType : Set :=
  | UINT8 | UINT16 | UINT32 | UINT64
  | INT8 | INT16 | INT32 | INT64
  | FLOAT32 | FLOAT64
  | UTF8.

(** Modelled from the spec: the closed enumeration [Endianness]. *)
Inductive Endianness : Set := LE | BE.

#[global] Instance ParamType_eq_dec : EqDecision ParamType.
Proof. solve_decision. Defined.

#[global] Instance Endianness_eq_dec : EqDecision Endianness.
Proof. solve_decision. Defined.

(** Modelled from the spec: the block header descriptor of section 3.
    The emitter only tests its presence. *)
Record Header : Type := {
  block_id : Z;
  major : Z;
  minor : Z;
  dataver : Z;
  data_length : Z
}.

(** Modelled from the spec: a parameter, with the attributes
    [begin_parameter] reads. *)
Record Param : Type := {
  offset : Z;
  name : text;
  ptype : ParamType;
  value : list byte;
  comment : option text
}.

(** Modelled from the spec: a block, with the attributes [begin_block]
    and [begin_parameter] read, and its parameters. *)
Record Block : Type := {
  addr : Z;
  block_name : text;
  endianess : Endianness;
  header : option Header;
  parameter : list Param
}.

(** Modelled from the spec: a container and the model. *)
Record Container : Type := {
  container_name : text;
  blocks : list Block
}.

Record Model : Type := {
  container : list Container
}.

End DM.

Import DM.

(** Modelled from the spec: [ByteConvert.get_type_size], the bytes one
    scalar of the type occupies (section 4.1); one byte per element for
    the text type (section 3). *)
Definition get_type_size (t : ParamType) : Z :=
  match t with
  | UINT8 | INT8 | UTF8 => 1
  | UINT16 | INT16 => 2
  | UINT32 | INT32 | FLOAT32 => 4
  | UINT64 | INT64 | FLOAT64 => 8
  end.

(** ** Values of the options dictionary *)

(** The values the driver puts into the options: [None], a [bool], an
    [int], a [str], a [pathlib.Path], or an object of another class such
    as a [datetime] or a [UUID]; a path and an object are given by their
    [str()]. *)
Inductive pyval : Type :=
  | PyNone
  | PyBool (b : bool)
  | PyInt (z : Z)
  | PyStr (s : text)
  | PyPath (p : text)
  | PyObj (s : text).

(** The [{v}] of an f-string. *)
Definition py_format (v : pyval) : text :=
  match v with
  | PyNone => str "None"
  | PyBool true => str "True"
  | PyBool false => str "False"
  | PyInt z => py_str_int z
  | PyStr s => s
  | PyPath p => p
  | PyObj s => s
  end.

(** [v is False]: identity with the singleton [False]. *)
Definition is_False (v : pyval) : bool :=
  match v with
  | PyBool false => true
  | _ => false
  end.

(** ** Dictionaries written as literals *)

Fixpoint dict_lookup {K V : Type} `{EqDecision K} (d : list (K * V)) (k : K) : option V :=
  match d with
  | [] => None
  | (k', v) :: d' => if decide (k' = k) then Some v else dict_lookup d' k
  end.

(** ** The emitter's state and its effects *)

Inductive pyerror : Set :=
  | TypeError
  | AttributeError
  | IndexError
  | KeyError
  | ValueError
  | ZeroDivisionError.

Inductive result (A : Type) : Type :=
  | Ok (a : A)
  | Raise (e : pyerror).

Arguments Ok {A} a.
Arguments Raise {A} e.

(** The attribute [a2l_file]: [None], a file open for writing with the
    text written so far, or that file after [close]. The text is what
    [write] was given, before the platform encodes it. *)
Inductive File : Type :=
  | Unopened
  | Open (written : text)
  | Closed (written : text).

(** An [A2lWriter] instance: the attributes of [Walker] and [a2l_file]. *)
Record Writer : Type := mkWriter {
  model : Model;
  options : gmap string pyval;
  ctx_container : option Container;
  ctx_block : option Block;
  a2l_file : File
}.

Definition set_a2l_file (f : File) (w : Writer) : Writer :=
  mkWriter (model w) (options w) (ctx_container w) (ctx_block w) f.

Definition set_ctx_container (c : Container) (w : Writer) : Writer :=
  mkWriter (model w) (options w) (Some c) (ctx_block w) (a2l_file w).

Definition set_ctx_block (b : Block) (w : Writer) : Writer :=
  mkWriter (model w) (options w) (ctx_container w) (Some b) (a2l_file w).

(** A method body: it reads and updates the instance and returns or
    raises. *)
Definition M (A : Type) : Type := Writer -> Writer * result A.

#[global] Instance M_ret : MRet M := fun A a w => (w, Ok a).

#[global] Instance M_bind : MBind M := fun A B f m w =>
  match m w with
  | (w', Ok a) => f a w'
  | (w', Raise e) => (w', Raise e)
  end.

Definition raise {A : Type} (e : pyerror) : M A := fun w => (w, Raise e).

Definition reads {A : Type} (f : Writer -> A) : M A := fun w => (w, Ok (f w)).

Definition modify (f : Writer -> Writer) : M unit := fun w => (f w, Ok tt).

(** [self.options.get(k)]: [None] for an absent key. *)
Definition options_get (k : string) : M pyval :=
  reads (fun w => default PyNone (options w !! k)).

(** [d[k]] *)
Definition subscript {K V : Type} `{EqDecision K} (d : list (K * V)) (k : K) : M V :=
  match dict_lookup d k with
  | Some v => mret v
  | None => raise KeyError
  end.

(** [l[0]] *)
Definition index0 {A : Type} (l : list A) : M A :=
  match l with
  | x :: _ => mret x
  | [] => raise IndexError
  end.

(** [self.a2l_file.write(t)] *)
Definition write (t : text) : M unit := fun w =>
  match a2l_file w with
  | Open c => (set_a2l_file (Open (c ++ t)) w, Ok tt)
  | Unopened => (w, Raise AttributeError)
  | Closed _ => (w, Raise ValueError)
  end.

(** [self.a2l_file.close()] *)
Definition close : M unit := fun w =>
  match a2l_file w with
  | Open c => (set_a2l_file (Closed c) w, Ok tt)
  | Closed c => (w, Ok tt)
  | Unopened => (w, Raise AttributeError)
  end.

(** [v + ".a2l"]: defined for a [str] only, among the option values. *)
Definition py_add_str (v : pyval) (t : text) : M text :=
  match v with
  | PyStr s => mret (s ++ t)
  | _ => raise TypeError
  end.

(** [Path.joinpath(v, t).open(mode='w')]: [v] has to be a path. The file
    starts empty; its name has no part in what is written. *)
Definition joinpath_open (v : pyval) (t : text) : M unit :=
  match v with
  | PyPath _ => modify (set_a2l_file (Open []))
  | _ => raise AttributeError
  end.

(** [int(n / e)] *)
Definition py_int_truediv (n e : Z) : M Z :=
  if e =? 0 then raise ZeroDivisionError else mret (int_truediv n e).

(** [len(b)] *)
Definition len {A : Type} (l : list A) : Z := Z.of_nat (List.length l).

(** ** [class A2lWriter(DM.Walker)] *)

Section A2lWriter.

(** [repr] of a [float], which an f-string applies to the float bounds of
    the table. It is Python's own and stays a parameter. *)
Variable repr_float : float -> text.

(** The [{x}] of an f-string, for a number of the table. *)
Definition fmt_num (x : pynum) : text :=
  match x with
  | PyI z => py_str_int z
  | PyF f => repr_float f
  end.

Definition _TYPE_MAPPING : list (ParamType * (text * pynum * pynum)) :=
  [ (UINT8, (str "UBYTE", PyI 0, PyI 0xFF));
    (UINT16, (str "UWORD", PyI 0, PyI 0xFFFF));
    (UINT32, (str "ULONG", PyI 0, PyI 0xFFFFFFFF));
    (UINT64, (str "A_UINT64", PyI 0, PyI 0xFFFFFFFFFFFFFFFF));
    (INT8, (str "SBYTE", PyI (-128), PyI 127));
    (INT16, (str "SWORD", PyI (-32768), PyI 32767));
    (INT32, (str "SLONG", PyI (-2147483648), PyI 2147483647));
    (INT64, (str "_A_INT64", PyI (-9223372036854775808), PyI 9223372036854775807));
    (FLOAT32, (str "FLOAT32_IEEE", PyF 1.175494351E-38, PyF 3.402823466E+38));
    (FLOAT64, (str "FLOAT64_IEEE", PyF 2.2250738585072014E-308, PyF 1.7976931348623158E+308));
    (UTF8, (str "UBYTE", PyI 0, PyI 0xFF)) ].

Definition _BYTEORDER_MAPPING : list (Endianness * text) :=
  [ (LE, str "MSB_LAST");
    (BE, str "MSB_FIRST") ].

(** [__init__]: the walker's attributes, no context yet, no file. *)
Definition init (m : Model) (o : gmap string pyval) : Writer :=
  mkWriter m o None None Unopened.

(** The file is taken to open; the message printed to the standard output
    is not part of the file. *)
Definition pre_run : M unit :=
  destdir ← options_get "DESTDIR";
  basename ← options_get "BASENAME";
  leaf ← py_add_str basename (str ".a2l");
  joinpath_open destdir leaf ;;
  pname ← options_get "PNAME";
  version ← options_get "VERSION";
  input ← options_get "INPUT";
  cmdline ← options_get "CMDLINE";
  write (str "/* AUTOGENERATED by " ++ py_format pname ++ str " "
         ++ py_format version ++ nl
         ++ str " * A2L parameter description for " ++ py_format input ++ nl
         ++ str " * cmd: " ++ py_format cmdline ++ nl) ;;
  static ← options_get "STATICOUTPUT";
  (if is_False static then
     datetime ← options_get "DATETIME";
     guid ← options_get "GUID";
     write (str " * Date: " ++ py_format datetime ++ nl
            ++ str " * Buildkey: " ++ py_format guid ++ nl)
   else mret tt) ;;
  write (str " */" ++ nl ++ nl) ;;
  write (str "ASAP2_VERSION 1 70" ++ nl) ;;
  basename ← options_get "BASENAME";
  write (str "/begin PROJECT " ++ py_format basename ++ str " " ++ dq ++ dq ++ nl ++ nl) ;;
  basename ← options_get "BASENAME";
  write (str "  /begin HEADER " ++ dq ++ py_format basename ++ dq ++ nl) ;;
  write (str "  /end HEADER " ++ nl ++ nl).

Definition begin_container (container : Container) : M unit :=
  write (str "  /begin MODULE " ++ container_name container ++ str " " ++ dq ++ dq ++ nl).

Definition end_container (container : Container) : M unit :=
  write (nl ++ str "  /end MODULE" ++ nl).

Definition begin_block (block : Block) : M unit :=
  match header block with
  | Some _ =>
      u16_0 ← subscript _TYPE_MAPPING UINT16;
      u16_1 ← subscript _TYPE_MAPPING UINT16;
      u16_2 ← subscript _TYPE_MAPPING UINT16;
      u32_0 ← subscript _TYPE_MAPPING UINT32;
      u32_1 ← subscript _TYPE_MAPPING UINT32;
      u32_2 ← subscript _TYPE_MAPPING UINT32;
      write (nl
        ++ str "    /begin TYPEDEF_MEASUREMENT" ++ nl
        ++ str "        T_" ++ block_name block ++ str "_USHORT" ++ nl
        ++ str "        " ++ dq ++ str "block 16 bit parameter type" ++ dq ++ nl
        ++ str "        " ++ u16_0.1.1 ++ nl
        ++ str "        NO_COMPU_METHOD " ++ nl
        ++ str "        0" ++ nl
        ++ str "        0" ++ nl
        ++ str "        " ++ fmt_num u16_1.1.2 ++ nl
        ++ str "        " ++ fmt_num u16_2.2 ++ nl
        ++ str "    /end TYPEDEF_MEASUREMENT" ++ nl
        ++ nl
        ++ str "    /begin TYPEDEF_MEASUREMENT" ++ nl
        ++ str "        T_" ++ block_name block ++ str "_ULONG" ++ nl
        ++ str "        " ++ dq ++ str "block 32 bit parameter type" ++ dq ++ nl
        ++ str "        " ++ u32_0.1.1 ++ nl
        ++ str "        NO_COMPU_METHOD " ++ nl
        ++ str "        0" ++ nl
        ++ str "        0" ++ nl
        ++ str "        " ++ fmt_num u32_1.1.2 ++ nl
        ++ str "        " ++ fmt_num u32_2.2 ++ nl
        ++ str "    /end TYPEDEF_MEASUREMENT" ++ nl
        ++ nl
        ++ str "    /begin TYPEDEF_STRUCTURE" ++ nl
        ++ str "        " ++ block_name block ++ str "_header_type_t" ++ nl
        ++ str "        " ++ dq ++ str "Block header structure" ++ dq ++ nl
        ++ str "        16" ++ nl
        ++ str "        /begin STRUCTURE_COMPONENT" ++ nl
        ++ str "            id T_" ++ block_name block ++ str "_USHORT" ++ nl
        ++ str "            0" ++ nl
        ++ str "        /end STRUCTURE_COMPONENT" ++ nl
        ++ str "        /begin STRUCTURE_COMPONENT" ++ nl
        ++ str "            major T_" ++ block_name block ++ str "_USHORT" ++ nl
        ++ str "            2" ++ nl
        ++ str "        /end STRUCTURE_COMPONENT" ++ nl
        ++ str "        /begin STRUCTURE_COMPONENT" ++ nl
        ++ str "            minor T_" ++ block_name block ++ str "_USHORT" ++ nl
        ++ str "            4" ++ nl
        ++ str "        /end STRUCTURE_COMPONENT" ++ nl
        ++ str "        /begin STRUCTURE_COMPONENT" ++ nl
        ++ str "            dataver T_" ++ block_name block ++ str "_USHORT" ++ nl
        ++ str "            6" ++ nl
        ++ str "        /end STRUCTURE_COMPONENT" ++ nl
        ++ str "        /begin STRUCTURE_COMPONENT" ++ nl
        ++ str "           reserved T_" ++ block_name block ++ str "_ULONG" ++ nl
        ++ str "            8" ++ nl
        ++ str "        /end STRUCTURE_COMPONENT" ++ nl
        ++ str "        /begin STRUCTURE_COMPONENT" ++ nl
        ++ str "           length T_" ++ block_name block ++ str "_ULONG" ++ nl
        ++ str "            12" ++ nl
        ++ str "        /end STRUCTURE_COMPONENT" ++ nl
        ++ str "    /end TYPEDEF_STRUCTURE" ++ nl
        ++ str "    /begin INSTANCE" ++ nl
        ++ str "        " ++ block_name block ++ str "_blkhdr" ++ nl
        ++ str "        " ++ dq ++ str "block header instance" ++ dq ++ nl
        ++ str "        " ++ block_name block ++ str "_header_type_t" ++ nl
        ++ str "        " ++ py_hex (addr block) ++ nl
        ++ str "    /end INSTANCE" ++ nl)
  | None => mret tt
  end.

(** [self.ctx_block.endianess]: an attribute of [None] when no block is
    active. *)
Definition ctx_block_endianess : M Endianness :=
  b ← reads ctx_block;
  match b with
  | Some blk => mret (endianess blk)
  | None => raise AttributeError
  end.

(** Write parameter as measurement. *)
Definition begin_parameter (param : Param) : M unit :=
  write (nl ++ str "    /begin MEASUREMENT " ++ name param ++ nl) ;;
  write (str "        " ++ dq) ;;
  match comment param with
  | Some c => line ← index0 (splitlines c); write line
  | None => write (str "No comment defined")
  end ;;
  write (dq ++ nl) ;;
  t0 ← subscript _TYPE_MAPPING (ptype param);
  t1 ← subscript _TYPE_MAPPING (ptype param);
  t2 ← subscript _TYPE_MAPPING (ptype param);
  e ← ctx_block_endianess;
  byteorder ← subscript _BYTEORDER_MAPPING e;
  write (str "        " ++ t0.1.1 ++ nl
         ++ str "        NO_COMPU_METHOD " ++ nl
         ++ str "        0" ++ nl
         ++ str "        0" ++ nl
         ++ str "        " ++ fmt_num t1.1.2 ++ nl
         ++ str "        " ++ fmt_num t2.2 ++ nl
         ++ str "        BYTE_ORDER " ++ byteorder ++ nl) ;;
  let element_size := get_type_size (ptype param) in
  (if bool_decide (UTF8 = ptype param) || (element_size <? len (value param)) then
     dim ← py_int_truediv (len (value param)) element_size;
     write (str "        MATRIX_DIM " ++ py_str_int dim ++ nl)
   else mret tt) ;;
  write (str "        ECU_ADDRESS " ++ py_hex (offset param) ++ nl
         ++ str "        ECU_ADDRESS_EXTENSION 0x0" ++ nl
         ++ str "        DISPLAY_IDENTIFIER " ++ name param ++ nl
         ++ str "        READ_WRITE" ++ nl) ;;
  write (str "    /end MEASUREMENT" ++ nl).

(** Close output file. *)
Definition post_run : M unit :=
  write (nl ++ str "/end PROJECT" ++ nl) ;;
  close.

(** Modelled from the spec: [Walker.end_block], the optional hook of
    section 4.3, which this emitter leaves to the base class. *)
Definition end_block (block : Block) : M unit := mret tt.

Fixpoint for_each {A : Type} (body : A -> M unit) (l : list A) : M unit :=
  match l with
  | [] => mret tt
  | x :: l' => body x ;; for_each body l'
  end.

(** Modelled from the spec: [Walker.run], the traversal of section 4.3,
    with the active container and block kept as ambient context. *)
Definition run : M unit :=
  pre_run ;;
  m ← reads model;
  for_each (fun c =>
    modify (set_ctx_container c) ;;
    begin_container c ;;
    for_each (fun b =>
      modify (set_ctx_block b) ;;
      begin_block b ;;
      for_each begin_parameter (parameter b) ;;
      end_block b) (blocks c) ;;
    end_container c) (container m) ;;
  post_run.

End A2lWriter.

(** ** The fixed tables of the specification *)



(** What the emitter renders for a type: the wire name and the two bounds
    as they appear in the text. *)
Definition rendered_triple (repr_float : float -> text) (t : ParamType)
  : option (text * text * text) :=
  match dict_lookup _TYPE_MAPPING t with
  | Some e => Some (e.1.1, fmt_num repr_float e.1.2, fmt_num repr_float e.2)
  | None => None
  end.

(** ** The measurement record of the specification *)

(** The placeholder description. *)
Definition no_comment : text := str "No comment defined".

(** The first line of a text: everything before its first line boundary. *)
Fixpoint first_line (s : text) : text :=
  match s with
  | [] => []
  | c :: rest => if is_linebreak c then [] else c :: first_line rest
  end.

(** The fields of a measurement record that vary (section 4.4, items 1 to
    9); the calibration marker, the address extension and the access tag
    are fixed. *)
Record Measurement : Type := {
  identifier : text;
  description : text;
  wire_name : text;
  lower_limit : text;
  upper_limit : text;
  byte_order : text;
  matrix_dim : option Z;
  ecu_address : text;
  display_identifier : text
}.

(** The array-dimension marker, or nothing. *)
Definition render_matrix_dim (d : option Z) : text :=
  match d with
  | Some k => str "        MATRIX_DIM " ++ py_str_int k ++ nl
  | None => []
  end.

(** The layout of a measurement record. *)
Definition render_measurement (r : Measurement) : text :=
  nl ++ str "    /begin MEASUREMENT " ++ identifier r ++ nl
  ++ str "        " ++ dq ++ description r ++ dq ++ nl
  ++ str "        " ++ wire_name r ++ nl
  ++ str "        NO_COMPU_METHOD " ++ nl
  ++ str "        0" ++ nl
  ++ str "        0" ++ nl
  ++ str "        " ++ lower_limit r ++ nl
  ++ str "        " ++ upper_limit r ++ nl
  ++ str "        BYTE_ORDER " ++ byte_order r ++ nl
  ++ render_matrix_dim (matrix_dim r)
  ++ str "        ECU_ADDRESS " ++ ecu_address r ++ nl
  ++ str "        ECU_ADDRESS_EXTENSION 0x0" ++ nl
  ++ str "        DISPLAY_IDENTIFIER " ++ display_identifier r ++ nl
  ++ str "        READ_WRITE" ++ nl
  ++ str "    /end MEASUREMENT" ++ nl.

(** The wire token of a byte order. *)
Definition byteorder_token (e : Endianness) : text :=
  match e with
  | LE => str "MSB_LAST"
  | BE => str "MSB_FIRST"
  end.

(** The table entry of a type, which exists for every type. *)
Definition type_entry (t : ParamType) : text * pynum * pynum :=
  default (str "", PyI 0, PyI 0) (dict_lookup _TYPE_MAPPING t).

(** The array test of [begin_parameter]. *)
Definition is_array (p : Param) : bool :=
  bool_decide (UTF8 = ptype p) || (get_type_size (ptype p) <? len (value p)).

(** The fields [begin_parameter] fills in for a parameter whose comment,
    if any, has a first line, under a block of byte order [e]. *)
Definition measurement_of (repr_float : float -> text) (e : Endianness) (p : Param)
  : Measurement :=
  {| identifier := name p;
     description := match comment p with
                    | Some c => first_line c
                    | None => no_comment
                    end;
     wire_name := (type_entry (ptype p)).1.1;
     lower_limit := fmt_num repr_float (type_entry (ptype p)).1.2;
     upper_limit := fmt_num repr_float (type_entry (ptype p)).2;
     byte_order := byteorder_token e;
     matrix_dim := if is_array p
                   then Some (int_truediv (len (value p)) (get_type_size (ptype p)))
                   else None;
     ecu_address := py_hex (offset p);
     display_identifier := name p |}.

(** What is in the file when [begin_parameter] fails on an empty comment:
    the opening of the record and of its description. *)
Definition broken_record (p : Param) : text :=
  nl ++ str "    /begin MEASUREMENT " ++ name p ++ nl ++ str "        " ++ dq.

(** ** The header comment of the specification *)

(** [options.get(k)] as a function of the dictionary. *)
Definition opt (o : gmap string pyval) (k : string) : pyval := default PyNone (o !! k).

(** The lines that name the tool, the input and the command line. *)
Definition header_top (o : gmap string pyval) : text :=
  str "/* AUTOGENERATED by " ++ py_format (opt o "PNAME") ++ str " "
  ++ py_format (opt o "VERSION") ++ nl
  ++ str " * A2L parameter description for " ++ py_format (opt o "INPUT") ++ nl
  ++ str " * cmd: " ++ py_format (opt o "CMDLINE") ++ nl.

(** The timestamp line and the build-identifier line. *)
Definition date_lines (o : gmap string pyval) : text :=
  str " * Date: " ++ py_format (opt o "DATETIME") ++ nl
  ++ str " * Buildkey: " ++ py_format (opt o "GUID") ++ nl.

(** The end of the comment and the document wrapper. *)
Definition header_rest (o : gmap string pyval) : text :=
  str " */" ++ nl ++ nl
  ++ str "ASAP2_VERSION 1 70" ++ nl
  ++ str "/begin PROJECT " ++ py_format (opt o "BASENAME") ++ str " " ++ dq ++ dq ++ nl ++ nl
  ++ str "  /begin HEADER " ++ dq ++ py_format (opt o "BASENAME") ++ dq ++ nl
  ++ str "  /end HEADER " ++ nl ++ nl.

(** What [pre_run] puts between the two: the date lines or nothing. *)
Definition stamp (o : gmap string pyval) : text :=
  if is_False (opt o "STATICOUTPUT") then date_lines o else [].

(** [s] occurs in [t] as a run of consecutive code points. *)
Fixpoint is_prefix (s t : text) : bool :=
  match s, t with
  | [], _ => true
  | x :: s', y :: t' => (x =? y)%N && is_prefix s' t'
  | _ :: _, [] => false
  end.

Fixpoint is_infix (s t : text) : bool :=
  is_prefix s t ||
  match t with
  | [] => false
  | _ :: t' => is_infix s t'
  end.

(** Two option sets that differ at most in the timestamp and the build
    identifier. *)
Definition agree_off_clock (o1 o2 : gmap string pyval) : Prop :=
  forall k : string, k <> "DATETIME"%string -> k <> "GUID"%string -> o1 !! k = o2 !! k.

(** Two files in the same state whose contents differ at most in one
    place, where one has [d1] and the other [d2]. *)
Definition same_but (d1 d2 : text) (f1 f2 : File) : Prop :=
  match f1, f2 with
  | Unopened, Unopened => True
  | Open c1, Open c2 | Closed c1, Closed c2 =>
      exists pre post, c1 = pre ++ d1 ++ post /\ c2 = pre ++ d2 ++ post
  | _, _ => False
  end.

(** ** The block header declarations of the specification *)

Definition typedef_measurement (ident descr wire lower upper : text) : text :=
  nl
  ++ str "    /begin TYPEDEF_MEASUREMENT" ++ nl
  ++ str "        " ++ ident ++ nl
  ++ str "        " ++ dq ++ descr ++ dq ++ nl
  ++ str "        " ++ wire ++ nl
  ++ str "        NO_COMPU_METHOD " ++ nl
  ++ str "        0" ++ nl
  ++ str "        0" ++ nl
  ++ str "        " ++ lower ++ nl
  ++ str "        " ++ upper ++ nl
  ++ str "    /end TYPEDEF_MEASUREMENT" ++ nl.

(** One field of the structure: its name, its measurement type and its
    byte offset, the first line indented by [indent] blanks. *)
Definition structure_component (indent : nat) (field type : text) (off : Z) : text :=
  str "        /begin STRUCTURE_COMPONENT" ++ nl
  ++ repeat 32%N indent ++ field ++ str " " ++ type ++ nl
  ++ str "            " ++ py_str_int off ++ nl
  ++ str "        /end STRUCTURE_COMPONENT" ++ nl.

Definition typedef_structure (ident descr : text) (size : Z) (components : list text) : text :=
  nl
  ++ str "    /begin TYPEDEF_STRUCTURE" ++ nl
  ++ str "        " ++ ident ++ nl
  ++ str "        " ++ dq ++ descr ++ dq ++ nl
  ++ str "        " ++ py_str_int size ++ nl
  ++ concat components
  ++ str "    /end TYPEDEF_STRUCTURE" ++ nl.

Definition instance (ident descr type address : text) : text :=
  str "    /begin INSTANCE" ++ nl
  ++ str "        " ++ ident ++ nl
  ++ str "        " ++ dq ++ descr ++ dq ++ nl
  ++ str "        " ++ type ++ nl
  ++ str "        " ++ address ++ nl
  ++ str "    /end INSTANCE" ++ nl.

(** The six header fields: name, whether 32 bits wide (else 16), byte
    offset, and the indentation the emitter gives the line. *)
Definition header_fields : list (text * bool * Z * nat) :=
  [ (str "id", false, 0, 12%nat);
    (str "major", false, 2, 12%nat);
    (str "minor", false, 4, 12%nat);
    (str "dataver", false, 6, 12%nat);
    (str "reserved", true, 8, 11%nat);
    (str "length", true, 12, 11%nat) ].

(** The names of the two measurement types of a block. *)
Definition ushort_type (block : Block) : text := str "T_" ++ block_name block ++ str "_USHORT".
Definition ulong_type (block : Block) : text := str "T_" ++ block_name block ++ str "_ULONG".

(** The declarations of a block with a header. *)
Definition header_declarations (block : Block) : text :=
  typedef_measurement (ushort_type block) (str "block 16 bit parameter type")
    (str "UWORD") (py_str_int 0) (py_str_int (2 ^ 16 - 1))
  ++ typedef_measurement (ulong_type block) (str "block 32 bit parameter type")
    (str "ULONG") (py_str_int 0) (py_str_int (2 ^ 32 - 1))
  ++ typedef_structure (block_name block ++ str "_header_type_t")
       (str "Block header structure") 16
       (map (fun '(field, wide, off, indent) =>
               structure_component indent field
                 (if wide : bool then ulong_type block else ushort_type block) off)
            header_fields)
  ++ instance (block_name block ++ str "_blkhdr") (str "block header instance")
       (block_name block ++ str "_header_type_t") (py_hex (addr block)).

(** ** Runs that differ in one place of the file *)

(** Two emitters with the same model and context whose files differ at
    most in one place. The options are not compared. *)
Definition related (d1 d2 : text) (w1 w2 : Writer) : Prop :=
  model w1 = model w2
  /\ ctx_container w1 = ctx_container w2
  /\ ctx_block w1 = ctx_block w2
  /\ same_but d1 d2 (a2l_file w1) (a2l_file w2).

(** A method body that treats two such emitters alike: same outcome, and
    the files still differ in that place only. *)
Definition oblivious {A : Type} (d1 d2 : text) (x : M A) : Prop :=
  forall w1 w2, related d1 d2 w1 w2 ->
    related d1 d2 (x w1).1 (x w2).1 /\ (x w1).2 = (x w2).2.

(** The traversal of [run] after [pre_run]. *)
Definition walk (repr_float : float -> text) : M unit :=
  m ← reads model;
  for_each (fun c =>
    modify (set_ctx_container c) ;;
    begin_container c ;;
    for_each (fun b =>
      modify (set_ctx_block b) ;;
      begin_block repr_float b ;;
      for_each (begin_parameter repr_float) (parameter b) ;;
      end_block b) (blocks c) ;;
    end_container c) (container m) ;;
  post_run.

(** ** The document as a whole *)





(** The comment is the empty string. *)
Definition has_empty_comment (p : Param) : bool :=
  match comment p with
  | Some [] => true
  | _ => false
  end.

(** The description of a record whose comment is not the empty string. *)
Definition description_of (p : Param) : text :=
  match comment p with
  | Some c => first_line c
  | None => no_comment
  end.

(** What is in the file when [begin_parameter] fails for want of an
    active block: the opening of the record and its description. *)
Definition record_head (p : Param) : text :=
  broken_record p ++ description_of p ++ dq ++ nl.








(** A method body that leaves the model and the options alone. *)
Definition keeps_inputs {A : Type} (x : M A) : Prop :=
  forall w, model (x w).1 = model w /\ options (x w).1 = options w.

(** A method body that, on a file that is open, only appends to it or
    appends and closes it, and leaves any other file as it is. *)
Definition extends (f f' : File) : Prop :=
  match f, f' with
  | Unopened, Unopened => True
  | Open c, Open c' | Open c, Closed c' => exists t, c' = c ++ t
  | Closed c, Closed c' => c' = c
  | _, _ => False
  end.

Definition append_only {A : Type} (x : M A) : Prop :=
  forall w, extends (a2l_file w) (a2l_file (x w).1).




(** ** Sample inputs *)

Definition no_float : float -> text := fun _ => [].

Definition sample_header : Header :=
  {| block_id := 1; major := 1; minor := 0; dataver := 3; data_length := 256 |}.

(** The parameter of the end-to-end scenario: 16 bits unsigned, two bytes,
    offset 0, no comment. *)
Definition sample_P1 : Param :=
  {| offset := 0; name := str "P1"; ptype := UINT16;
     value := [Byte.x34; Byte.x12]; comment := None |}.

(** A 32-bit parameter with two elements and a comment of two lines. *)
Definition sample_array : Param :=
  {| offset := 4; name := str "gains"; ptype := UINT32;
     value := [Byte.x01; Byte.x00; Byte.x00; Byte.x00; Byte.x02; Byte.x00; Byte.x00; Byte.x00];
     comment := Some (str "loop gains" ++ nl ++ str "two stages") |}.

(** The same with other lines after the first. *)
Definition sample_array' : Param :=
  {| offset := 4; name := str "gains"; ptype := UINT32;
     value := [Byte.x01; Byte.x00; Byte.x00; Byte.x00; Byte.x02; Byte.x00; Byte.x00; Byte.x00];
     comment := Some (str "loop gains" ++ [13%N; 10%N] ++ str "revised") |}.

(** A text parameter of one byte. *)
Definition sample_text : Param :=
  {| offset := 12; name := str "tag"; ptype := UTF8;
     value := [Byte.x41]; comment := Some (str "one letter") |}.

(** A parameter whose comment is the empty string. *)
Definition sample_empty_comment : Param :=
  {| offset := 16; name := str "spare"; ptype := INT8;
     value := [Byte.x00]; comment := Some [] |}.

(** A float parameter. *)
Definition sample_float : Param :=
  {| offset := 20; name := str "ratio"; ptype := FLOAT32;
     value := [Byte.x00; Byte.x00; Byte.x80; Byte.xbf]; comment := None |}.

(** The block of the scenario: no header, base address 0x1000, little
    endian. *)
Definition sample_block : Block :=
  {| addr := 0x1000; block_name := str "B1"; endianess := LE; header := None;
     parameter := [sample_P1] |}.

(** A block with a header at another address. *)
Definition sample_block_hdr : Block :=
  {| addr := 0x8000; block_name := str "cal"; endianess := LE;
     header := Some sample_header;
     parameter := [sample_array; sample_text] |}.

Definition sample_model : Model :=
  {| container := [ {| container_name := str "C1"; blocks := [sample_block] |} ] |}.

Definition sample_model_hdr : Model :=
  {| container := [ {| container_name := str "C1"; blocks := [sample_block_hdr] |} ] |}.

(** Options without the static-output flag. *)
Definition sample_options : gmap string pyval :=
  <["DESTDIR" := PyPath (str "out")]>
  (<["BASENAME" := PyStr (str "demo")]>
  (<["PNAME" := PyStr (str "pargen")]>
  (<["VERSION" := PyStr (str "0.1.0")]>
  (<["INPUT" := PyStr (str "demo.xml")]>
  (<["CMDLINE" := PyStr (str "pargen --a2l demo.xml")]>
  (<["DATETIME" := PyStr (str "2023-01-07 10:00:00")]>
  (<["GUID" := PyStr (str "7f5d1c")]> ∅))))))).

(** The same options with the flag given. *)
Definition sample_options_static (b : bool) : gmap string pyval :=
  <["STATICOUTPUT" := PyBool b]> sample_options.

(** The same options at a later run. *)
Definition sample_options_later (b : bool) : gmap string pyval :=
  <["DATETIME" := PyStr (str "2023-01-08 09:30:00")]>
  (<["GUID" := PyStr (str "a04be2")]> (sample_options_static b)).

(** A big-endian block with the parameter of the scenario, and a model
    whose second parameter has an empty comment. *)
Definition sample_block_be : Block :=
  {| addr := 0x1000; block_name := str "B1"; endianess := BE; header := None;
     parameter := [sample_P1] |}.


(** A 16-bit parameter with a payload of five bytes. *)
Definition sample_ragged : Param :=
  {| offset := 0; name := str "odd"; ptype := UINT16;
     value := [Byte.x01; Byte.x02; Byte.x03; Byte.x04; Byte.x05]; comment := None |}.

(** * Properties *)

(** ** The type table *)

(** The table has an entry for every type, so [_TYPE_MAPPING[t]] never
    raises. *)
Lemma type_mapping_total (t : ParamType) :
  exists e, dict_lookup _TYPE_MAPPING t = Some e.
Proof. destruct t; eexists; reflexivity. Qed.

Lemma byteorder_mapping_total (e : Endianness) :
  exists tok, dict_lookup _BYTEORDER_MAPPING e = Some tok.
Proof. destruct e; eexists; reflexivity. Qed.


(** ** Lines of a text *)

Lemma splitlines_no_break (c : N) (s : text) :
  is_linebreak c = false ->
  splitlines (c :: s) = match splitlines s with [] => [[c]] | l :: ls => (c :: l) :: ls end.
Proof. intros H. simpl. rewrite H. reflexivity. Qed.

Lemma splitlines_break (c : N) (s : text) :
  is_linebreak c = true -> exists ls, splitlines (c :: s) = [] :: ls.
Proof.
  intros H. simpl. rewrite H. destruct s as [|d s]; [eexists; reflexivity|].
  destruct ((c =? 13)%N && (d =? 10)%N); eexists; reflexivity.
Qed.

Lemma splitlines_first_line (c : N) (s : text) :
  exists ls, splitlines (c :: s) = first_line (c :: s) :: ls.
Proof.
  revert c. induction s as [|d s IH]; intros c.
  - simpl. destruct (is_linebreak c); eexists; reflexivity.
  - destruct (is_linebreak c) eqn:Hc.
    + destruct (splitlines_break c (d :: s) Hc) as [ls Hls]. rewrite Hls.
      cbn [first_line]. rewrite Hc. eexists; reflexivity.
    + rewrite (splitlines_no_break c (d :: s) Hc).
      destruct (IH d) as [ls Hls]. rewrite Hls.
      change (first_line (c :: d :: s)) with (if is_linebreak c then [] else c :: first_line (d :: s)).
      rewrite Hc. eexists; reflexivity.
Qed.

(** ** Laws of the effects *)

Lemma bind_ret {A B} (a : A) (k : A -> M B) (w : Writer) : (mret a ≫= k) w = k a w.
Proof. reflexivity. Qed.

Lemma bind_raise {A B} (e : pyerror) (k : A -> M B) (w : Writer) :
  (raise e ≫= k) w = (w, Raise e).
Proof. reflexivity. Qed.

Lemma bind_assoc {A B C} (x : M A) (f : A -> M B) (g : B -> M C) (w : Writer) :
  ((x ≫= f) ≫= g) w = (x ≫= fun a => f a ≫= g) w.
Proof.
  unfold mbind, M_bind. destruct (x w) as [w' [a|e]]; reflexivity.
Qed.

Lemma bind_write {A} (t : text) (k : unit -> M A) m o cc cb c :
  (write t ≫= k) (mkWriter m o cc cb (Open c)) = k tt (mkWriter m o cc cb (Open (c ++ t))).
Proof. reflexivity. Qed.

Lemma write_open (t : text) m o cc cb c :
  write t (mkWriter m o cc cb (Open c)) = (mkWriter m o cc cb (Open (c ++ t)), Ok tt).
Proof. reflexivity. Qed.

Lemma subscript_type_mapping (t : ParamType) :
  subscript _TYPE_MAPPING t = mret (type_entry t).
Proof. destruct t; reflexivity. Qed.

Lemma subscript_byteorder_mapping (e : Endianness) :
  subscript _BYTEORDER_MAPPING e = mret (byteorder_token e).
Proof. destruct e; reflexivity. Qed.

Lemma bind_ctx_block_endianess {A} (k : Endianness -> M A) m o cc b f :
  (ctx_block_endianess ≫= k) (mkWriter m o cc (Some b) f)
  = k (endianess b) (mkWriter m o cc (Some b) f).
Proof. reflexivity. Qed.

Lemma get_type_size_pos (t : ParamType) : 0 < get_type_size t.
Proof. destruct t; reflexivity. Qed.

Lemma py_int_truediv_size (n : Z) (t : ParamType) :
  py_int_truediv n (get_type_size t) = mret (int_truediv n (get_type_size t)).
Proof. destruct t; reflexivity. Qed.

Ltac mstep :=
  repeat first
    [ rewrite bind_assoc
    | rewrite bind_write
    | rewrite bind_ret
    | rewrite bind_raise
    | rewrite bind_ctx_block_endianess
    | rewrite write_open ].

(** ** What [begin_parameter] writes *)

(** On an open file and under an active block, [begin_parameter] appends
    the record of the parameter, or fails on an empty comment after it
    has opened the description. *)
Lemma begin_parameter_open repr (p : Param) m o cc (b : Block) (c : text) :
  begin_parameter repr p (mkWriter m o cc (Some b) (Open c)) =
  match comment p with
  | Some [] => (mkWriter m o cc (Some b) (Open (c ++ broken_record p)), Raise IndexError)
  | _ => (mkWriter m o cc (Some b) (Open (c ++ render_measurement (measurement_of repr (endianess b) p))), Ok tt)
  end.
Proof.
  unfold begin_parameter.
  rewrite !subscript_type_mapping, py_int_truediv_size.
  unfold render_measurement, measurement_of, broken_record, render_matrix_dim, no_comment.
  fold (is_array p).
  destruct p as [off nm ty val cm]. cbn [name comment ptype value offset identifier description wire_name lower_limit upper_limit byte_order matrix_dim ecu_address display_identifier].
  destruct cm as [[|x cmt]|].
  - cbn [splitlines index0]. mstep. rewrite <- !app_assoc. reflexivity.
  - destruct (splitlines_first_line x cmt) as [ls Hls]. rewrite Hls. cbn [index0].
    mstep. rewrite subscript_byteorder_mapping. mstep.
    destruct (is_array _); mstep; rewrite <- !app_assoc; reflexivity.
  - mstep. rewrite subscript_byteorder_mapping. mstep.
    destruct (is_array _); mstep; rewrite <- !app_assoc; reflexivity.
Qed.

(** ** True division of lengths *)

Lemma rne_div_cases (a b : Z) :
  0 < b ->
  rne_div a b = a / b \/ (rne_div a b = a / b + 1 /\ b <= 2 * (a mod b)).
Proof.
  intros Hb. unfold rne_div.
  destruct (Z.ltb_spec (2 * (a mod b)) b); [left; reflexivity|].
  destruct (Z.ltb_spec b (2 * (a mod b))); [right; split; [reflexivity|lia]|].
  destruct (Z.even (a / b)); [left; reflexivity|right; split; [reflexivity|lia]].
Qed.

(** Rounding on a grid of step [1/P] cannot reach the next integer when the
    grid is fine enough for the size of the quotient. *)
Lemma rne_div_scaled (n e P L : Z) :
  0 < e -> 0 <= n < 2 ^ 53 -> 0 < P -> 0 <= L <= n / e ->
  (2 ^ 53 <= 2 * P * L \/ (L = 0 /\ P = 2 ^ 53)) ->
  rne_div (n * P) e / P = n / e.
Proof.
  intros He Hn HP HL Hgrid.
  assert (Hq : (n * P / e) / P = n / e).
  { rewrite Z.div_div by lia.
    rewrite Z.div_mul_cancel_r by lia. reflexivity. }
  destruct (rne_div_cases (n * P) e He) as [-> | [-> Hr]]; [exact Hq|].
  pose proof (Z.div_mod (n * P) e ltac:(lia)) as Hdm.
  pose proof (Z.mod_pos_bound (n * P) e He) as Hrb.
  pose proof (Z.div_mod n e ltac:(lia)) as Hdn.
  pose proof (Z.mod_pos_bound n e He) as Hnb.
  pose proof (Z.div_mod (n * P / e) P ltac:(lia)) as Hdq.
  pose proof (Z.mod_pos_bound (n * P / e) P HP) as Hqb.
  rewrite Hq in Hdq.
  set (Q := n / e) in *. set (q := n * P / e) in *.
  set (r := (n * P) mod e) in *. set (t := q mod P) in *. set (rn := n mod e) in *.
  (* q = P * Q + t with t < P; the claim fails only if t = P - 1 *)
  destruct (Z.eq_dec t (P - 1)) as [Ht | Ht].
  - exfalso.
    (* n * P = e * (P * Q + P - 1) + r, 2 r >= e, n = e Q + rn, rn < e *)
    assert (H1 : rn * P = e * (P - 1) + r) by nia.
    assert (H2 : (e - rn) * P = e - r) by nia.
    assert (H3 : 1 <= e - rn) by lia.
    assert (H4 : 2 * P <= e).
    { assert (P <= e - r) by nia. nia. }
    destruct Hgrid as [Hg | [HL0 HP0]].
    + assert (2 * P * L <= e * Q) by nia. lia.
    + subst P. assert (2 ^ 53 * (e - rn) <= e - r) by lia.
      assert (e - r <= e) by lia.
      assert (2 ^ 54 <= e) by lia.
      assert (Hx : 2 ^ 53 * e - e <= 2 ^ 53 * rn) by lia.
      assert (rn <= n) by nia.
      nia.
  - symmetry. apply Z.div_unique with (r := t + 1); lia.
Qed.

Lemma bit_length_spec (q : Z) :
  0 <= q ->
  0 <= bit_length q /\ q < 2 ^ bit_length q
  /\ (0 < q -> 2 ^ (bit_length q - 1) <= q).
Proof.
  intros Hq. unfold bit_length. destruct (Z.eqb_spec q 0) as [->|Hne].
  - repeat split; lia.
  - pose proof (Z.log2_spec q ltac:(lia)) as [Hlo Hhi].
    pose proof (Z.log2_nonneg q).
    replace (Z.log2 q + 1 - 1) with (Z.log2 q) by lia.
    replace (Z.log2 q + 1) with (Z.succ (Z.log2 q)) by lia.
    repeat split; try lia.
Qed.

Lemma int_truediv_exact (n e : Z) :
  0 <= n < 2 ^ 53 -> 0 < e -> int_truediv n e = n / e.
Proof.
  intros Hn He. unfold int_truediv.
  assert (HQ : 0 <= n / e <= n).
  { split; [apply Z.div_pos; lia|]. apply Z.div_le_upper_bound; nia. }
  destruct (bit_length_spec (n / e) ltac:(lia)) as (Hk0 & Hkhi & Hklo).
  set (k := bit_length (n / e)) in *.
  assert (Hk : k <= 53).
  { destruct (Z.le_gt_cases k 53) as [|Hgt]; [assumption|].
    destruct (Z.eq_dec (n / e) 0) as [H0|H0].
    - unfold k, bit_length. rewrite H0. simpl. lia.
    - specialize (Hklo ltac:(lia)).
      assert (2 ^ 53 <= 2 ^ (k - 1)) by (apply Z.pow_le_mono_r; lia). lia. }
  destruct (Z.leb_spec k 53); [|lia].
  assert (HP : 0 < 2 ^ (53 - k)) by (apply Z.pow_pos_nonneg; lia).
  destruct (Z.eq_dec (n / e) 0) as [H0|H0].
  - apply rne_div_scaled with (L := 0); try lia.
    right. split; [reflexivity|]. unfold k, bit_length. rewrite H0. reflexivity.
  - specialize (Hklo ltac:(lia)).
    assert (1 <= k).
    { unfold k, bit_length. destruct (Z.eqb_spec (n / e) 0); [lia|]. pose proof (Z.log2_nonneg (n / e)). lia. }
    assert (HL : 0 <= 2 ^ (k - 1)) by (apply Z.pow_nonneg; lia).
    assert (HG : 2 * 2 ^ (53 - k) * 2 ^ (k - 1) = 2 ^ 53).
    { change (2 * 2 ^ (53 - k)) with (2 ^ 1 * 2 ^ (53 - k)).
      rewrite <- !Z.pow_add_r by lia. f_equal. lia. }
    apply rne_div_scaled with (L := 2 ^ (k - 1)); lia.
Qed.

(** ** Hexadecimal literals *)

Lemma unstr_str (s : string) : unstr (str s) = s.
Proof.
  unfold unstr, str. rewrite map_map.
  rewrite (map_ext _ (fun a => a)) by apply ascii_N_embedding.
  rewrite map_id. apply string_of_list_ascii_of_string.
Qed.

(** The literal [hex] renders denotes the number rendered. *)
Lemma hex_value_py_hex (z : Z) : hex_value (py_hex z) = z.
Proof. unfold hex_value, py_hex. rewrite unstr_str. apply HexString.to_Z_of_Z. Qed.

Lemma py_hex_inj (a b : Z) : py_hex a = py_hex b -> a = b.
Proof.
  intros H. rewrite <- (hex_value_py_hex a), <- (hex_value_py_hex b), H. reflexivity.
Qed.

(** ** The first line *)

Lemma splitlines_nil_iff (s : text) : splitlines s = [] <-> s = [].
Proof.
  split; [|intros ->; reflexivity].
  destruct s as [|c s]; [reflexivity|].
  destruct (splitlines_first_line c s) as [ls Hls]. rewrite Hls. discriminate.
Qed.

(** The first line is the longest prefix free of line boundaries. *)
Lemma first_line_spec (s : text) :
  exists rest,
    s = first_line s ++ rest
    /\ List.Forall (fun c => is_linebreak c = false) (first_line s)
    /\ match rest with
       | [] => True
       | c :: _ => is_linebreak c = true
       end.
Proof.
  induction s as [|c s (rest & Hs & Hfree & Hnext)].
  - exists []. repeat split. constructor.
  - cbn [first_line]. destruct (is_linebreak c) eqn:Hc.
    + exists (c :: s). repeat split; [constructor|exact Hc].
    + exists rest. repeat split.
      * cbn. rewrite <- Hs. reflexivity.
      * constructor; assumption.
      * exact Hnext.
Qed.

(** ** The measurement record *)

(** C1: a record has the array-dimension marker exactly when the type is
    the text type or the payload is longer than one element, and the
    marker's value is the payload length divided by the element size.
    A numeric payload of one element has no marker, a numeric payload of
    [k > 1] elements has the marker [k], a text of [N] bytes has the
    marker [N]. The payload is shorter than 2^53 bytes, where the
    division through a float is exact. *)
Theorem begin_parameter_matrix_dim (repr_float : float -> text) (p : Param)
    (m : Model) (o : gmap string pyval) (cc : option Container) (b : Block) (c : text) :
  comment p <> Some [] ->
  len (value p) < 2 ^ 53 ->
  let size := get_type_size (ptype p) in
  let n := len (value p) in
  let r := measurement_of repr_float (endianess b) p in
  begin_parameter repr_float p (mkWriter m o cc (Some b) (Open c))
    = (mkWriter m o cc (Some b) (Open (c ++ render_measurement r)), Ok tt)
  /\ matrix_dim r
     = (if bool_decide (ptype p = UTF8) || (size <? n) then Some (n / size) else None)
  /\ (matrix_dim r = Some (n / size) <-> ptype p = UTF8 \/ size < n)
  /\ (ptype p <> UTF8 -> n = size -> matrix_dim r = None)
  /\ (forall k, ptype p <> UTF8 -> 1 < k -> n = k * size -> matrix_dim r = Some k)
  /\ (ptype p = UTF8 -> matrix_dim r = Some n).
Proof.
  intros Hc Hn size n r.
  assert (Hsize : 0 < size) by apply get_type_size_pos.
  assert (Hn0 : 0 <= n) by (unfold n, len; lia).
  assert (Hdim : matrix_dim r
     = (if bool_decide (ptype p = UTF8) || (size <? n) then Some (n / size) else None)).
  { unfold r, measurement_of, is_array. cbn [matrix_dim]. fold size n.
    rewrite int_truediv_exact by lia.
    replace (bool_decide (UTF8 = ptype p)) with (bool_decide (ptype p = UTF8))
      by (apply bool_decide_ext; split; congruence).
    reflexivity. }
  split.
  { rewrite begin_parameter_open. destruct (comment p) as [[|x s]|]; [congruence|reflexivity..]. }
  split; [exact Hdim|].
  rewrite Hdim.
  destruct (decide (ptype p = UTF8)) as [Ht|Ht].
  - rewrite (bool_decide_eq_true_2 _ Ht). cbn [orb].
    assert (Hs1 : size = 1) by (unfold size; rewrite Ht; reflexivity).
    split; [|split; [|split]].
    + split; [intros _; left; exact Ht|reflexivity].
    + intros Hne; contradiction.
    + intros k Hne; contradiction.
    + intros _. rewrite Hs1, Z.div_1_r. reflexivity.
  - rewrite (bool_decide_eq_false_2 _ Ht). cbn [orb].
    destruct (Z.ltb_spec size n) as [Hlt|Hge]; (split; [|split; [|split]]).
    + split; [intros _; right; exact Hlt|reflexivity].
    + intros _ Hns. lia.
    + intros k _ Hk Hnk. rewrite Hnk, Z.div_mul by lia. reflexivity.
    + intros Hu; contradiction.
    + split; [intros H; discriminate H|intros [H|H]; [contradiction|lia]].
    + reflexivity.
    + intros k _ Hk Hnk. nia.
    + intros Hu; contradiction.
Qed.

(** C4: the address of a record is the parameter's offset as a
    hexadecimal literal, followed by the address extension [0x0]; it does
    not involve the base address of the block, so it differs from the
    literal of base plus offset whenever the base is not zero. *)
Theorem begin_parameter_ecu_address (repr_float : float -> text) (p : Param)
    (m : Model) (o : gmap string pyval) (cc : option Container) (b : Block) (c : text) :
  comment p <> Some [] ->
  exists head : text,
    begin_parameter repr_float p (mkWriter m o cc (Some b) (Open c))
      = (mkWriter m o cc (Some b)
           (Open (c ++ head
                  ++ str "        ECU_ADDRESS " ++ py_hex (offset p) ++ nl
                  ++ str "        ECU_ADDRESS_EXTENSION 0x0" ++ nl
                  ++ str "        DISPLAY_IDENTIFIER " ++ name p ++ nl
                  ++ str "        READ_WRITE" ++ nl
                  ++ str "    /end MEASUREMENT" ++ nl)), Ok tt)
    /\ hex_value (py_hex (offset p)) = offset p
    /\ (addr b <> 0 -> py_hex (offset p) <> py_hex (addr b + offset p)).
Proof.
  intros Hc.
  set (r := measurement_of repr_float (endianess b) p).
  exists (nl ++ str "    /begin MEASUREMENT " ++ identifier r ++ nl
          ++ str "        " ++ dq ++ description r ++ dq ++ nl
          ++ str "        " ++ wire_name r ++ nl
          ++ str "        NO_COMPU_METHOD " ++ nl
          ++ str "        0" ++ nl
          ++ str "        0" ++ nl
          ++ str "        " ++ lower_limit r ++ nl
          ++ str "        " ++ upper_limit r ++ nl
          ++ str "        BYTE_ORDER " ++ byte_order r ++ nl
          ++ render_matrix_dim (matrix_dim r)).
  split; [|split].
  - rewrite begin_parameter_open.
    destruct (comment p) as [[|x s]|] eqn:Hcm; [congruence| |];
      unfold render_measurement; fold r; rewrite <- !app_assoc; reflexivity.
  - apply hex_value_py_hex.
  - intros Hb Heq. apply py_hex_inj in Heq. lia.
Qed.

(** C7: the description of a record is the first line of the comment,
    the text before the first line boundary, when there is a comment, and
    the placeholder when there is none; what follows the first line of
    the comment has no effect on what is written. *)
Theorem begin_parameter_description (repr_float : float -> text) (p : Param)
    (m : Model) (o : gmap string pyval) (cc : option Container) (b : Block) (c : text) :
  comment p <> Some [] ->
  let w := mkWriter m o cc (Some b) (Open c) in
  let r := measurement_of repr_float (endianess b) p in
  begin_parameter repr_float p w
    = (mkWriter m o cc (Some b) (Open (c ++ render_measurement r)), Ok tt)
  /\ (comment p = None -> description r = str "No comment defined")
  /\ (forall s, comment p = Some s ->
        description r = first_line s
        /\ (exists ls, splitlines s = description r :: ls)
        /\ List.Forall (fun x => is_linebreak x = false) (description r)
        /\ (forall s', s' <> [] -> first_line s' = first_line s ->
              begin_parameter repr_float
                {| offset := offset p; name := name p; ptype := ptype p;
                   value := value p; comment := Some s' |} w
              = begin_parameter repr_float p w)).
Proof.
  intros Hc w r.
  assert (Hrun : begin_parameter repr_float p w
    = (mkWriter m o cc (Some b) (Open (c ++ render_measurement r)), Ok tt)).
  { unfold w. rewrite begin_parameter_open.
    destruct (comment p) as [[|x s]|]; [congruence|reflexivity..]. }
  split; [exact Hrun|]. split.
  - intros Hnone. unfold r, measurement_of. cbn [description]. rewrite Hnone. reflexivity.
  - intros s Hs.
    assert (Hd : description r = first_line s).
    { unfold r, measurement_of. cbn [description]. rewrite Hs. reflexivity. }
    rewrite Hd. split; [reflexivity|]. split; [|split].
    + destruct s as [|x s]; [congruence|]. apply splitlines_first_line.
    + destruct (first_line_spec s) as (rest & _ & Hfree & _). exact Hfree.
    + intros s' Hs' Hfl. rewrite Hrun. unfold w. rewrite begin_parameter_open.
      cbn [comment]. destruct s' as [|x' s'']; [congruence|].
      unfold render_measurement, r, measurement_of, is_array.
      cbn [identifier description wire_name lower_limit upper_limit byte_order
           matrix_dim ecu_address display_identifier offset name ptype value comment].
      rewrite Hs, Hfl. reflexivity.
Qed.

(** C9: on an open file and under an active block, [begin_parameter]
    returns exactly when the comment is absent or has at least one line;
    only the empty comment has no line, and for it the first-line lookup
    raises [IndexError] after the record and its description have been
    opened, so no record is completed. *)
Theorem begin_parameter_empty_comment (repr_float : float -> text) (p : Param)
    (m : Model) (o : gmap string pyval) (cc : option Container) (b : Block) (c : text) :
  let w := mkWriter m o cc (Some b) (Open c) in
  ((begin_parameter repr_float p w).2 = Ok tt
   <-> comment p = None \/ exists s, comment p = Some s /\ splitlines s <> [])
  /\ (forall s, splitlines s = [] <-> s = [])
  /\ begin_parameter repr_float
       {| offset := offset p; name := name p; ptype := ptype p;
          value := value p; comment := Some [] |} w
     = (mkWriter m o cc (Some b)
          (Open (c ++ nl ++ str "    /begin MEASUREMENT " ++ name p ++ nl
                 ++ str "        " ++ dq)),
        Raise IndexError).
Proof.
  intros w. split; [|split].
  - unfold w. rewrite begin_parameter_open.
    destruct (comment p) as [[|x s]|] eqn:Hcm; cbn [snd]; split.
    + discriminate.
    + intros [H|(s & Hs & Hne)]; [discriminate H|].
      injection Hs as <-. exfalso. apply Hne. reflexivity.
    + intros _. right. exists (x :: s). split; [reflexivity|].
      rewrite splitlines_nil_iff. discriminate.
    + reflexivity.
    + intros _. left. reflexivity.
    + reflexivity.
  - apply splitlines_nil_iff.
  - unfold w. rewrite begin_parameter_open. reflexivity.
Qed.

(** C10: what [begin_parameter] does depends on the active block only
    through its byte order: under two blocks of the same byte order, and
    whatever the model, the options and the active container are, it ends
    with the same file and the same outcome, and on open files it appends
    the same text. *)
Theorem begin_parameter_block_independent (repr_float : float -> text) (p : Param)
    (m1 m2 : Model) (o1 o2 : gmap string pyval) (cc1 cc2 : option Container)
    (b1 b2 : Block) (f : File) (c1 c2 : text) :
  endianess b1 = endianess b2 ->
  (let r1 := begin_parameter repr_float p (mkWriter m1 o1 cc1 (Some b1) f) in
   let r2 := begin_parameter repr_float p (mkWriter m2 o2 cc2 (Some b2) f) in
   a2l_file r1.1 = a2l_file r2.1 /\ r1.2 = r2.2)
  /\ exists t : text,
       a2l_file (begin_parameter repr_float p (mkWriter m1 o1 cc1 (Some b1) (Open c1))).1
         = Open (c1 ++ t)
       /\ a2l_file (begin_parameter repr_float p (mkWriter m2 o2 cc2 (Some b2) (Open c2))).1
         = Open (c2 ++ t).
Proof.
  intros He. split.
  - destruct f as [|c|c].
    + split; reflexivity.
    + rewrite !begin_parameter_open, He.
      destruct (comment p) as [[|x s]|]; split; reflexivity.
    + split; reflexivity.
  - rewrite !begin_parameter_open, He.
    destruct (comment p) as [[|x s]|]; eexists; split; reflexivity.
Qed.

Lemma begin_parameter_matrix_dim_witness :
  comment sample_array <> Some []
  /\ len (value sample_array) < 2 ^ 53
  /\ matrix_dim (measurement_of no_float LE sample_array) = Some 2
  /\ matrix_dim (measurement_of no_float LE sample_array)
     = Some (len (value sample_array) / get_type_size (ptype sample_array)).
Proof.
  assert (Hc : comment sample_array <> Some []) by discriminate.
  assert (Hn : len (value sample_array) < 2 ^ 53) by reflexivity.
  destruct (begin_parameter_matrix_dim no_float sample_array sample_model_hdr
              sample_options None sample_block_hdr [] Hc Hn) as (_ & _ & Hiff & _ & Hk & _).
  split; [exact Hc|]. split; [exact Hn|]. split.
  - apply (Hk 2); [discriminate|reflexivity|reflexivity].
  - apply Hiff. right. reflexivity.
Defined.

Lemma begin_parameter_ecu_address_witness :
  comment sample_P1 <> Some []
  /\ exists head : text,
       begin_parameter no_float sample_P1
         (mkWriter sample_model sample_options None (Some sample_block) (Open []))
       = (mkWriter sample_model sample_options None (Some sample_block)
            (Open ([] ++ head
                   ++ str "        ECU_ADDRESS " ++ py_hex 0 ++ nl
                   ++ str "        ECU_ADDRESS_EXTENSION 0x0" ++ nl
                   ++ str "        DISPLAY_IDENTIFIER " ++ str "P1" ++ nl
                   ++ str "        READ_WRITE" ++ nl
                   ++ str "    /end MEASUREMENT" ++ nl)), Ok tt)
       /\ py_hex 0 <> py_hex (0x1000 + 0).
Proof.
  assert (Hc : comment sample_P1 <> Some []) by discriminate.
  split; [exact Hc|].
  destruct (begin_parameter_ecu_address no_float sample_P1 sample_model sample_options
              None sample_block [] Hc) as (head & Hrun & _ & Hne).
  exists head. split; [exact Hrun|]. apply Hne. discriminate.
Defined.

Lemma begin_parameter_description_witness :
  comment sample_array <> Some []
  /\ description (measurement_of no_float LE sample_array) = str "loop gains"
  /\ begin_parameter no_float sample_array'
       (mkWriter sample_model_hdr sample_options None (Some sample_block_hdr) (Open []))
     = begin_parameter no_float sample_array
         (mkWriter sample_model_hdr sample_options None (Some sample_block_hdr) (Open [])).
Proof.
  assert (Hc : comment sample_array <> Some []) by discriminate.
  destruct (begin_parameter_description no_float sample_array sample_model_hdr
              sample_options None sample_block_hdr [] Hc) as (_ & _ & Hs).
  destruct (Hs _ eq_refl) as (Hd & _ & _ & Hrest).
  split; [exact Hc|]. split.
  - exact Hd.
  - apply (Hrest (str "loop gains" ++ [13%N; 10%N] ++ str "revised")); [discriminate|reflexivity].
Defined.

Lemma begin_parameter_block_independent_witness :
  endianess sample_block = endianess sample_block_hdr
  /\ addr sample_block <> addr sample_block_hdr
  /\ a2l_file (begin_parameter no_float sample_P1
                 (mkWriter sample_model sample_options None (Some sample_block) (Open []))).1
     = a2l_file (begin_parameter no_float sample_P1
                   (mkWriter sample_model_hdr (sample_options_static true) None
                      (Some sample_block_hdr) (Open []))).1.
Proof.
  assert (He : endianess sample_block = endianess sample_block_hdr) by reflexivity.
  split; [exact He|]. split; [discriminate|].
  apply (begin_parameter_block_independent no_float sample_P1 sample_model sample_model_hdr
           sample_options (sample_options_static true) None None
           sample_block sample_block_hdr (Open []) [] [] He).
Defined.

(** Above 2^53 the float no longer holds every length: a text of 2^53 + 1
    bytes would get the marker 2^53. *)
Example int_truediv_inexact : int_truediv (2 ^ 53 + 1) 1 = 2 ^ 53.
Proof. reflexivity. Qed.

(** The record of the end-to-end scenario of the specification. *)
Example scenario_record :
  render_measurement (measurement_of no_float LE sample_P1)
  = nl ++ str "    /begin MEASUREMENT P1" ++ nl
    ++ str "        " ++ dq ++ str "No comment defined" ++ dq ++ nl
    ++ str "        UWORD" ++ nl
    ++ str "        NO_COMPU_METHOD " ++ nl
    ++ str "        0" ++ nl
    ++ str "        0" ++ nl
    ++ str "        0" ++ nl
    ++ str "        65535" ++ nl
    ++ str "        BYTE_ORDER MSB_LAST" ++ nl
    ++ str "        ECU_ADDRESS 0x0" ++ nl
    ++ str "        ECU_ADDRESS_EXTENSION 0x0" ++ nl
    ++ str "        DISPLAY_IDENTIFIER P1" ++ nl
    ++ str "        READ_WRITE" ++ nl
    ++ str "    /end MEASUREMENT" ++ nl.
Proof. reflexivity. Qed.

(** A text of one byte is an array of one element. *)
Example text_of_one_byte :
  matrix_dim (measurement_of no_float LE sample_text) = Some 1.
Proof. reflexivity. Qed.

(** ** The header comment *)

Lemma bind_options_get {A} (k : string) (g : pyval -> M A) m o cc cb f :
  (options_get k ≫= g) (mkWriter m o cc cb f) = g (opt o k) (mkWriter m o cc cb f).
Proof. reflexivity. Qed.

(** [pre_run] needs a text as base name and a path as destination; then
    it opens the file anew and writes the header, with the date lines or
    without. *)
Lemma pre_run_spec m o cc cb f :
  pre_run (mkWriter m o cc cb f)
  = match opt o "BASENAME" with
    | PyStr _ =>
        match opt o "DESTDIR" with
        | PyPath _ =>
            (mkWriter m o cc cb (Open (header_top o ++ stamp o ++ header_rest o)), Ok tt)
        | _ => (mkWriter m o cc cb f, Raise AttributeError)
        end
    | _ => (mkWriter m o cc cb f, Raise TypeError)
    end.
Proof.
  unfold pre_run. rewrite !bind_options_get.
  destruct (opt o "BASENAME") eqn:Hb; try reflexivity.
  cbn [py_add_str]. rewrite bind_ret.
  destruct (opt o "DESTDIR") eqn:Hd; try reflexivity.
  cbn [joinpath_open].
  change ((modify (set_a2l_file (Open [])) ≫= ?k) (mkWriter m o cc cb f))
    with (k tt (mkWriter m o cc cb (Open []))).
  cbv beta. rewrite !bind_options_get, bind_write, !bind_options_get.
  unfold stamp, header_top, header_rest, date_lines.
  destruct (is_False (opt o "STATICOUTPUT"));
    repeat first [rewrite bind_assoc | rewrite bind_options_get | rewrite bind_write
                 | rewrite write_open | rewrite bind_ret];
    cbn [app]; rewrite <- ?app_assoc; reflexivity.
Qed.

(** C3, as amended: [pre_run] writes the timestamp line and the
    build-identifier line exactly when the option [STATICOUTPUT] is
    present and is [False]; when it is [True], absent or anything else,
    the header has neither line. *)
Theorem pre_run_date_lines (m : Model) (o : gmap string pyval) (dir base : text) :
  o !! "DESTDIR" = Some (PyPath dir) ->
  o !! "BASENAME" = Some (PyStr base) ->
  (o !! "STATICOUTPUT" = Some (PyBool false) ->
     pre_run (init m o)
     = (mkWriter m o None None (Open (header_top o ++ date_lines o ++ header_rest o)), Ok tt))
  /\ (o !! "STATICOUTPUT" <> Some (PyBool false) ->
     pre_run (init m o)
     = (mkWriter m o None None (Open (header_top o ++ header_rest o)), Ok tt)).
Proof.
  intros Hd Hb. unfold init. rewrite pre_run_spec.
  assert (Hod : opt o "DESTDIR" = PyPath dir) by (unfold opt; rewrite Hd; reflexivity).
  assert (Hob : opt o "BASENAME" = PyStr base) by (unfold opt; rewrite Hb; reflexivity).
  rewrite Hod, Hob. unfold stamp.
  split; intros Hs.
  - replace (is_False (opt o "STATICOUTPUT")) with true; [reflexivity|].
    unfold opt. rewrite Hs. reflexivity.
  - replace (is_False (opt o "STATICOUTPUT")) with false; [reflexivity|].
    unfold opt. destruct (o !! "STATICOUTPUT") as [[|[|]| | | |]|]; try reflexivity.
    congruence.
Qed.

Lemma is_prefix_app (s t : text) : is_prefix s (s ++ t) = true.
Proof.
  induction s as [|x s IH]; [reflexivity|].
  cbn. rewrite N.eqb_refl. exact IH.
Qed.

Lemma is_infix_app (pre s post : text) : is_infix s (pre ++ s ++ post) = true.
Proof.
  induction pre as [|x pre IH].
  - cbn [app]. destruct (s ++ post) eqn:E; cbn [is_infix];
      rewrite <- E, is_prefix_app; reflexivity.
  - cbn [app is_infix]. rewrite IH. apply orb_true_r.
Qed.

(** C3, as stated, fails: with the flag absent the run options are not
    static, yet the header has no date line. *)
Lemma pre_run_flag_absent :
  sample_options !! "STATICOUTPUT" = None
  /\ pre_run (init sample_model sample_options)
     = (mkWriter sample_model sample_options None None
          (Open (header_top sample_options ++ header_rest sample_options)), Ok tt)
  /\ ~ (exists pre post,
          header_top sample_options ++ header_rest sample_options
          = pre ++ str " * Date: " ++ post)
  /\ ~ (exists pre post,
          header_top sample_options ++ header_rest sample_options
          = pre ++ str " * Buildkey: " ++ post).
Proof.
  split; [reflexivity|]. split; [reflexivity|].
  split; intros (pre & post & H).
  - apply (f_equal (is_infix (str " * Date: "))) in H. rewrite is_infix_app in H.
    vm_compute in H. discriminate H.
  - apply (f_equal (is_infix (str " * Buildkey: "))) in H. rewrite is_infix_app in H.
    vm_compute in H. discriminate H.
Qed.

Lemma pre_run_date_lines_witness :
  pre_run (init sample_model (sample_options_static false))
  = (mkWriter sample_model (sample_options_static false) None None
       (Open (header_top (sample_options_static false)
              ++ date_lines (sample_options_static false)
              ++ header_rest (sample_options_static false))), Ok tt)
  /\ pre_run (init sample_model (sample_options_static true))
     = (mkWriter sample_model (sample_options_static true) None None
          (Open (header_top (sample_options_static true)
                 ++ header_rest (sample_options_static true))), Ok tt).
Proof.
  split.
  - apply (pre_run_date_lines sample_model (sample_options_static false) (str "out") (str "demo"));
      reflexivity.
  - apply (pre_run_date_lines sample_model (sample_options_static true) (str "out") (str "demo"));
      [reflexivity|reflexivity|discriminate].
Defined.

(** ** The block header *)

(** C8: for a block with a header [begin_block] appends, in this order,
    the 16-bit and the 32-bit measurement type with the wire name and the
    range of the type table, the structure type [<block>_header_type_t]
    of size 16 with the six fields at offsets 0, 2, 4, 6, 8 and 12, and
    the instance at the block's address as a hexadecimal literal, which
    denotes that address. For a block without header it does nothing. *)
Theorem begin_block_header (repr_float : float -> text) (block : Block) :
  (forall m o cc cb c, header block <> None ->
     begin_block repr_float block (mkWriter m o cc cb (Open c))
     = (mkWriter m o cc cb (Open (c ++ header_declarations block)), Ok tt))
  /\ (forall w, header block = None -> begin_block repr_float block w = (w, Ok tt))
  /\ rendered_triple repr_float UINT16
     = Some (str "UWORD", py_str_int 0, py_str_int (2 ^ 16 - 1))
  /\ rendered_triple repr_float UINT32
     = Some (str "ULONG", py_str_int 0, py_str_int (2 ^ 32 - 1))
  /\ map (fun '(field, _, off, _) => (field, off)) header_fields
     = [ (str "id", 0); (str "major", 2); (str "minor", 4);
         (str "dataver", 6); (str "reserved", 8); (str "length", 12) ]
  /\ hex_value (py_hex (addr block)) = addr block.
Proof.
  split; [|split; [|split; [|split; [|split]]]].
  - intros m o cc cb c Hh. unfold begin_block.
    destruct (header block) as [h|]; [|congruence].
    rewrite !subscript_type_mapping. mstep.
    unfold header_declarations, typedef_measurement, typedef_structure, instance,
      structure_component, header_fields, ushort_type, ulong_type.
    cbn [map concat]. rewrite <- !app_assoc.
    vm_compute. reflexivity.
  - intros w Hh. unfold begin_block. rewrite Hh. reflexivity.
  - reflexivity.
  - reflexivity.
  - reflexivity.
  - apply hex_value_py_hex.
Qed.

(** ** Reproducible runs *)

Section Oblivious.

Variables d1 d2 : text.

Lemma oblivious_ret {A} (a : A) : oblivious d1 d2 (mret a).
Proof. intros w1 w2 H. split; [exact H|reflexivity]. Qed.

Lemma oblivious_raise {A} (e : pyerror) : oblivious d1 d2 (raise e : M A).
Proof. intros w1 w2 H. split; [exact H|reflexivity]. Qed.

Lemma oblivious_bind {A B} (x : M A) (f : A -> M B) :
  oblivious d1 d2 x -> (forall a, oblivious d1 d2 (f a)) -> oblivious d1 d2 (x ≫= f).
Proof.
  intros Hx Hf w1 w2 H. destruct (Hx w1 w2 H) as [Hw Hr].
  unfold mbind, M_bind.
  destruct (x w1) as [w1' r1], (x w2) as [w2' r2]. cbn [fst snd] in Hw, Hr. subst r2.
  destruct r1 as [a|e]; [apply Hf; exact Hw|split; [exact Hw|reflexivity]].
Qed.

Lemma oblivious_write (t : text) : oblivious d1 d2 (write t).
Proof.
  intros [m1 o1 cc1 cb1 f1] [m2 o2 cc2 cb2 f2] (Hm & Hcc & Hcb & Hf).
  cbn [model ctx_container ctx_block a2l_file] in *. unfold write. cbn [a2l_file].
  destruct f1 as [|c1|c1], f2 as [|c2|c2]; try contradiction; cbn [same_but] in Hf.
  - split; [repeat split; assumption|reflexivity].
  - destruct Hf as (pre & post & -> & ->).
    split; [|reflexivity]. repeat split; try assumption.
    exists pre, (post ++ t). rewrite <- !app_assoc. split; reflexivity.
  - split; [|reflexivity]. repeat split; try assumption.
Qed.

Lemma oblivious_close : oblivious d1 d2 close.
Proof.
  intros [m1 o1 cc1 cb1 f1] [m2 o2 cc2 cb2 f2] (Hm & Hcc & Hcb & Hf).
  cbn [model ctx_container ctx_block a2l_file] in *. unfold close. cbn [a2l_file].
  destruct f1 as [|c1|c1], f2 as [|c2|c2]; try contradiction;
    (split; [repeat split; assumption|reflexivity]).
Qed.

Lemma oblivious_reads_model : oblivious d1 d2 (reads model).
Proof. intros w1 w2 H. split; [exact H|]. cbn. f_equal. apply H. Qed.

Lemma oblivious_reads_ctx_block : oblivious d1 d2 (reads ctx_block).
Proof. intros w1 w2 H. split; [exact H|]. cbn. f_equal. apply H. Qed.

Lemma oblivious_set_ctx_container (c : Container) :
  oblivious d1 d2 (modify (set_ctx_container c)).
Proof.
  intros w1 w2 (Hm & Hcc & Hcb & Hf). split; [|reflexivity].
  repeat split; assumption.
Qed.

Lemma oblivious_set_ctx_block (b : Block) : oblivious d1 d2 (modify (set_ctx_block b)).
Proof.
  intros w1 w2 (Hm & Hcc & Hcb & Hf). split; [|reflexivity].
  repeat split; assumption.
Qed.

Lemma oblivious_subscript {K V} `{EqDecision K} (d : list (K * V)) (k : K) :
  oblivious d1 d2 (subscript d k).
Proof.
  unfold subscript. destruct (dict_lookup d k);
    [apply oblivious_ret|apply oblivious_raise].
Qed.

Lemma oblivious_index0 {A} (l : list A) : oblivious d1 d2 (index0 l).
Proof. destruct l; [apply oblivious_raise|apply oblivious_ret]. Qed.

Lemma oblivious_py_int_truediv (n e : Z) : oblivious d1 d2 (py_int_truediv n e).
Proof.
  unfold py_int_truediv. destruct (e =? 0); [apply oblivious_raise|apply oblivious_ret].
Qed.

Lemma oblivious_for_each {A} (body : A -> M unit) (l : list A) :
  (forall x, oblivious d1 d2 (body x)) -> oblivious d1 d2 (for_each body l).
Proof.
  intros Hbody. induction l as [|x l IH]; cbn [for_each].
  - apply oblivious_ret.
  - apply oblivious_bind; [apply Hbody|intros _; exact IH].
Qed.

#[local] Create HintDb oblivious.

#[local] Hint Resolve oblivious_ret oblivious_raise oblivious_write oblivious_close
  oblivious_reads_model oblivious_reads_ctx_block oblivious_set_ctx_container
  oblivious_set_ctx_block oblivious_subscript oblivious_index0
  oblivious_py_int_truediv : oblivious.

Ltac oblivious_steps :=
  repeat first
    [ apply oblivious_bind; [|intros ?]
    | apply oblivious_for_each; intros ?
    | solve [auto with oblivious]
    | match goal with
      | |- oblivious _ _ (match ?x with _ => _ end) => destruct x
      end ].

Lemma oblivious_begin_container (c : Container) : oblivious d1 d2 (begin_container c).
Proof. apply oblivious_write. Qed.

Lemma oblivious_end_container (c : Container) : oblivious d1 d2 (end_container c).
Proof. apply oblivious_write. Qed.

Lemma oblivious_begin_block repr_float (b : Block) :
  oblivious d1 d2 (begin_block repr_float b).
Proof. unfold begin_block. destruct (header b); oblivious_steps. Qed.

Lemma oblivious_begin_parameter repr_float (p : Param) :
  oblivious d1 d2 (begin_parameter repr_float p).
Proof.
  unfold begin_parameter, ctx_block_endianess.
  oblivious_steps.
Qed.

Lemma oblivious_post_run : oblivious d1 d2 post_run.
Proof. unfold post_run. oblivious_steps. Qed.

Lemma oblivious_walk repr_float : oblivious d1 d2 (walk repr_float).
Proof.
  unfold walk, end_block.
  repeat first
    [ apply oblivious_begin_container
    | apply oblivious_end_container
    | apply oblivious_begin_block
    | apply oblivious_begin_parameter
    | apply oblivious_post_run
    | apply oblivious_for_each; intros ?
    | solve [auto with oblivious]
    | apply oblivious_bind; [|intros ?] ].
Qed.

End Oblivious.

Lemma same_but_refl_eq (d : text) (f1 f2 : File) : same_but d d f1 f2 -> f1 = f2.
Proof.
  destruct f1 as [|c1|c1], f2 as [|c2|c2]; cbn; try contradiction; try reflexivity;
    intros (pre & post & -> & ->); reflexivity.
Qed.

Lemma opt_agree (o1 o2 : gmap string pyval) (k : string) :
  agree_off_clock o1 o2 -> k <> "DATETIME"%string -> k <> "GUID"%string ->
  opt o1 k = opt o2 k.
Proof. intros H H1 H2. unfold opt. rewrite (H k H1 H2). reflexivity. Qed.

Lemma run_walk repr_float (w : Writer) :
  run repr_float w
  = match pre_run w with
    | (w', Ok _) => walk repr_float w'
    | (w', Raise e) => (w', Raise e)
    end.
Proof. reflexivity. Qed.

(** C6: two runs over the same model, with options that agree on
    everything but the timestamp and the build identifier, have the same
    outcome and leave files in the same state whose contents differ at
    most where the header has the date lines. With the static-output flag
    [True] the files are identical; with the flag [False] they agree up to
    the date lines of the one run and the date lines of the other. *)
Theorem run_reproducible (repr_float : float -> text) (m : Model)
    (o1 o2 : gmap string pyval) :
  agree_off_clock o1 o2 ->
  let r1 := run repr_float (init m o1) in
  let r2 := run repr_float (init m o2) in
  r1.2 = r2.2
  /\ same_but (stamp o1) (stamp o2) (a2l_file r1.1) (a2l_file r2.1)
  /\ (opt o1 "STATICOUTPUT" = PyBool true -> a2l_file r1.1 = a2l_file r2.1)
  /\ (opt o1 "STATICOUTPUT" = PyBool false ->
        same_but (date_lines o1) (date_lines o2) (a2l_file r1.1) (a2l_file r2.1)).
Proof.
  intros Hagree r1 r2.
  assert (Hflag : opt o1 "STATICOUTPUT" = opt o2 "STATICOUTPUT")
    by (apply opt_agree; [assumption|discriminate..]).
  assert (Hmain : r1.2 = r2.2
                  /\ same_but (stamp o1) (stamp o2) (a2l_file r1.1) (a2l_file r2.1)).
  { unfold r1, r2, init. rewrite !run_walk, !pre_run_spec.
    rewrite <- (opt_agree o1 o2 "BASENAME" Hagree) by discriminate.
    rewrite <- (opt_agree o1 o2 "DESTDIR" Hagree) by discriminate.
    destruct (opt o1 "BASENAME") eqn:Hb; try (split; [reflexivity|exact I]).
    destruct (opt o1 "DESTDIR") eqn:Hd; try (split; [reflexivity|exact I]).
    assert (Hrel : related (stamp o1) (stamp o2)
              (mkWriter m o1 None None (Open (header_top o1 ++ stamp o1 ++ header_rest o1)))
              (mkWriter m o2 None None (Open (header_top o2 ++ stamp o2 ++ header_rest o2)))).
    { repeat split. cbn [a2l_file same_but].
      exists (header_top o1), (header_rest o1). split; [reflexivity|].
      unfold header_top, header_rest.
      rewrite <- (opt_agree o1 o2 "PNAME" Hagree) by discriminate.
      rewrite <- (opt_agree o1 o2 "VERSION" Hagree) by discriminate.
      rewrite <- (opt_agree o1 o2 "INPUT" Hagree) by discriminate.
      rewrite <- (opt_agree o1 o2 "CMDLINE" Hagree) by discriminate.
      rewrite <- (opt_agree o1 o2 "BASENAME" Hagree) by discriminate.
      reflexivity. }
    destruct (oblivious_walk _ _ repr_float _ _ Hrel) as [(_ & _ & _ & Hf) Hr].
    split; [exact Hr|exact Hf]. }
  destruct Hmain as [Hr Hf].
  split; [exact Hr|]. split; [exact Hf|]. split.
  - intros Htrue. apply (same_but_refl_eq []).
    unfold stamp in Hf. rewrite <- Hflag, Htrue in Hf. exact Hf.
  - intros Hfalse. unfold stamp in Hf. rewrite <- Hflag, Hfalse in Hf. exact Hf.
Qed.

Lemma sample_options_agree (b : bool) :
  agree_off_clock (sample_options_static b) (sample_options_later b).
Proof.
  intros k Hd Hg. unfold sample_options_later.
  rewrite lookup_insert_ne by congruence.
  rewrite lookup_insert_ne by congruence.
  reflexivity.
Qed.

Lemma run_reproducible_witness :
  agree_off_clock (sample_options_static true) (sample_options_later true)
  /\ opt (sample_options_static true) "DATETIME" <> opt (sample_options_later true) "DATETIME"
  /\ a2l_file (run no_float (init sample_model_hdr (sample_options_static true))).1
     = a2l_file (run no_float (init sample_model_hdr (sample_options_later true))).1
  /\ same_but (date_lines (sample_options_static false))
       (date_lines (sample_options_later false))
       (a2l_file (run no_float (init sample_model_hdr (sample_options_static false))).1)
       (a2l_file (run no_float (init sample_model_hdr (sample_options_later false))).1).
Proof.
  split; [apply sample_options_agree|]. split; [discriminate|]. split.
  - apply (run_reproducible no_float sample_model_hdr _ _ (sample_options_agree true)).
    reflexivity.
  - apply (run_reproducible no_float sample_model_hdr _ _ (sample_options_agree false)).
    reflexivity.
Defined.

(** The end-to-end scenario of the specification: the run completes,
    closes the file, and the file holds the header, one module named C1
    with the one record, and the closing of the project. *)
Example scenario_run :
  run no_float (init sample_model (sample_options_static true))
  = (mkWriter sample_model (sample_options_static true)
       (Some {| container_name := str "C1"; blocks := [sample_block] |})
       (Some sample_block)
       (Closed (header_top (sample_options_static true)
                ++ header_rest (sample_options_static true)
                ++ str "  /begin MODULE C1 " ++ dq ++ dq ++ nl
                ++ render_measurement (measurement_of no_float LE sample_P1)
                ++ nl ++ str "  /end MODULE" ++ nl
                ++ nl ++ str "/end PROJECT" ++ nl)),
     Ok tt).
Proof. vm_compute. reflexivity. Qed.

(** A run stops at the first hook that raises: the parameter with the
    empty comment leaves the file open with its record begun. *)
Example run_aborts :
  let m := {| container := [ {| container_name := str "C1";
                                blocks := [ {| addr := 0; block_name := str "B";
                                               endianess := BE; header := None;
                                               parameter := [sample_empty_comment; sample_P1] |} ] |} ] |} in
  let r := run no_float (init m (sample_options_static true)) in
  r.2 = Raise IndexError
  /\ a2l_file r.1
     = Open (header_top (sample_options_static true)
             ++ header_rest (sample_options_static true)
             ++ str "  /begin MODULE C1 " ++ dq ++ dq ++ nl
             ++ broken_record sample_empty_comment).
Proof. split; vm_compute; reflexivity. Qed.

(** ** The float limits *)

(** C5 fails on the code: the lower limit of each float type in the table
    is the smallest positive normal value of the format, not the negation
    of the upper limit. The 64-bit pair is exactly the least normal and
    the greatest finite binary64 value; the 32-bit pair is the least
    normal and the greatest finite binary32 value to ten digits. *)
Theorem float_limits_positive_minimum (repr_float : float -> text) :
  let lo32 := 1.175494351E-38%float in
  let hi32 := 3.402823466E+38%float in
  let lo64 := 2.2250738585072014E-308%float in
  let hi64 := 1.7976931348623158E+308%float in
  dict_lookup _TYPE_MAPPING FLOAT32 = Some (str "FLOAT32_IEEE", PyF lo32, PyF hi32)
  /\ dict_lookup _TYPE_MAPPING FLOAT64 = Some (str "FLOAT64_IEEE", PyF lo64, PyF hi64)
  /\ rendered_triple repr_float FLOAT32
     = Some (str "FLOAT32_IEEE", repr_float lo32, repr_float hi32)
  /\ rendered_triple repr_float FLOAT64
     = Some (str "FLOAT64_IEEE", repr_float lo64, repr_float hi64)
  /\ (0 <? lo32)%float = true /\ (0 <? lo64)%float = true
  /\ (lo32 =? - hi32)%float = false /\ (lo64 =? - hi64)%float = false
  /\ lo64 = 0x1p-1022%float /\ hi64 = 0x1.fffffffffffffp+1023%float
  /\ (0x1p-126 <=? lo32)%float = true /\ (lo32 <? 0x1.000001p-126)%float = true
  /\ (0x1.fffffdp+127 <? hi32)%float = true /\ (hi32 <=? 0x1.fffffep+127)%float = true.
Proof. cbv zeta. repeat split; reflexivity. Qed.

(** The record of a 32-bit float parameter: its lower limit is the
    rendering of that positive value. *)
Example float_record_lower_limit (repr_float : float -> text) :
  lower_limit (measurement_of repr_float LE sample_float) = repr_float 1.175494351E-38%float
  /\ upper_limit (measurement_of repr_float LE sample_float) = repr_float 3.402823466E+38%float.
Proof. split; reflexivity. Qed.

(** * Further properties of the emitter *)

(** ** [begin_parameter] in every state *)

Lemma has_empty_comment_spec (p : Param) :
  has_empty_comment p = true <-> comment p = Some [].
Proof.
  unfold has_empty_comment. destruct (comment p) as [[|x s]|]; split; congruence.
Qed.

(** What [begin_parameter] does in every state of the emitter. *)
Lemma begin_parameter_spec repr_float (p : Param) m o cc cb f :
  begin_parameter repr_float p (mkWriter m o cc cb f)
  = match f with
    | Unopened => (mkWriter m o cc cb f, Raise AttributeError)
    | Closed _ => (mkWriter m o cc cb f, Raise ValueError)
    | Open c =>
        if has_empty_comment p
        then (mkWriter m o cc cb (Open (c ++ broken_record p)), Raise IndexError)
        else
          match cb with
          | None => (mkWriter m o cc cb (Open (c ++ record_head p)), Raise AttributeError)
          | Some b =>
              (mkWriter m o cc cb
                 (Open (c ++ render_measurement (measurement_of repr_float (endianess b) p))),
               Ok tt)
          end
    end.
Proof.
  destruct f as [|c|c]; [reflexivity| |reflexivity].
  destruct cb as [b|].
  - rewrite begin_parameter_open. unfold has_empty_comment.
    destruct (comment p) as [[|x s]|]; reflexivity.
  - unfold begin_parameter, record_head, broken_record, description_of, has_empty_comment,
      no_comment.
    rewrite !subscript_type_mapping.
    destruct (comment p) as [[|x s]|].
    + cbn [splitlines index0]. mstep. rewrite <- !app_assoc. reflexivity.
    + destruct (splitlines_first_line x s) as [ls Hls]. rewrite Hls. cbn [index0].
      mstep. rewrite <- !app_assoc. reflexivity.
    + mstep. rewrite <- !app_assoc. reflexivity.
Qed.

(** ** The run as a whole *)











(** ** What [render_model] gives *)











(** ** Complete and aborted runs *)








(** ** What a parameter's record shows and hides *)


(** X5: the bytes of the value are never written; only their number
    counts. Replacing the value of a parameter by another of the same
    length changes nothing in what [begin_parameter] does, in any state. *)
Theorem begin_parameter_value_hidden (repr_float : float -> text) (p : Param)
    (v : list byte) (w : Writer) :
  List.length v = List.length (value p) ->
  begin_parameter repr_float
    {| offset := offset p; name := name p; ptype := ptype p; value := v;
       comment := comment p |} w
  = begin_parameter repr_float p w.
Proof.
  intros Hlen. destruct w as [m o cc cb f]. rewrite !begin_parameter_spec.
  unfold has_empty_comment, broken_record, record_head, description_of, measurement_of,
    is_array, len.
  cbn [offset name ptype value comment]. rewrite Hlen. reflexivity.
Qed.

Lemma begin_parameter_value_hidden_witness :
  begin_parameter no_float
    {| offset := 0; name := str "P1"; ptype := UINT16;
       value := [Byte.xff; Byte.xff]; comment := None |}
    (mkWriter sample_model sample_options None (Some sample_block) (Open []))
  = begin_parameter no_float sample_P1
      (mkWriter sample_model sample_options None (Some sample_block) (Open [])).
Proof.
  apply (begin_parameter_value_hidden no_float sample_P1 [Byte.xff; Byte.xff]).
  reflexivity.
Defined.

(** The two byte-order tokens differ in their fifth letter. *)
Lemma byteorder_token_inj (e1 e2 : Endianness) (x y : text) :
  byteorder_token e1 ++ x = byteorder_token e2 ++ y -> e1 = e2.
Proof.
  destruct e1, e2; try reflexivity; intros H;
    apply (f_equal (fun l => nth 4 l 0%N)) in H; vm_compute in H; discriminate H.
Qed.

(** X6: the byte order of the active block shows in the record: under two
    blocks of different byte order the same parameter, written to the same
    open file, gives different files. *)
Theorem begin_parameter_byte_order_visible (repr_float : float -> text) (p : Param)
    (m : Model) (o : gmap string pyval) (cc : option Container) (b1 b2 : Block) (c : text) :
  comment p <> Some [] ->
  endianess b1 <> endianess b2 ->
  a2l_file (begin_parameter repr_float p (mkWriter m o cc (Some b1) (Open c))).1
  <> a2l_file (begin_parameter repr_float p (mkWriter m o cc (Some b2) (Open c))).1.
Proof.
  intros Hc He. rewrite !begin_parameter_spec.
  replace (has_empty_comment p) with false
    by (symmetry; apply not_true_is_false; intros H; apply has_empty_comment_spec in H;
        contradiction).
  cbn [fst a2l_file]. intros H. injection H as H.
  apply List.app_inv_head in H.
  unfold render_measurement, measurement_of in H.
  cbn [identifier description wire_name lower_limit upper_limit byte_order] in H.
  repeat (apply List.app_inv_head in H).
  apply He. exact (byteorder_token_inj _ _ _ _ H).
Qed.

Lemma begin_parameter_byte_order_visible_witness :
  a2l_file (begin_parameter no_float sample_P1
              (mkWriter sample_model sample_options None (Some sample_block) (Open []))).1
  <> a2l_file (begin_parameter no_float sample_P1
                 (mkWriter sample_model sample_options None (Some sample_block_be) (Open []))).1.
Proof.
  apply (begin_parameter_byte_order_visible no_float sample_P1 sample_model sample_options
           None sample_block sample_block_be []); discriminate.
Defined.

(** X7: the array-dimension marker counts whole elements: for a payload
    shorter than 2^53 bytes its value [k] satisfies
    [k * size <= length < (k + 1) * size], so bytes beyond the last whole
    element are not counted; on a numeric type the marker is at least 1,
    and it is 0 only for a text without bytes. *)
Theorem begin_parameter_matrix_dim_floor (repr_float : float -> text) (p : Param)
    (m : Model) (o : gmap string pyval) (cc : option Container) (b : Block) (c : text) :
  comment p <> Some [] ->
  len (value p) < 2 ^ 53 ->
  let r := measurement_of repr_float (endianess b) p in
  begin_parameter repr_float p (mkWriter m o cc (Some b) (Open c))
    = (mkWriter m o cc (Some b) (Open (c ++ render_measurement r)), Ok tt)
  /\ forall k, matrix_dim r = Some k ->
       k * get_type_size (ptype p) <= len (value p) < (k + 1) * get_type_size (ptype p)
       /\ (ptype p <> UTF8 -> 1 <= k)
       /\ (k = 0 -> ptype p = UTF8 /\ value p = []).
Proof.
  intros Hc Hn r. split.
  { rewrite begin_parameter_open. destruct (comment p) as [[|x s]|]; [congruence|reflexivity..]. }
  intros k Hk. unfold r, measurement_of, is_array in Hk. cbn [matrix_dim] in Hk.
  pose proof (get_type_size_pos (ptype p)) as Hs.
  assert (Hn0 : 0 <= len (value p)) by (unfold len; lia).
  rewrite int_truediv_exact in Hk by lia.
  set (n := len (value p)) in *. set (size := get_type_size (ptype p)) in *.
  destruct (bool_decide (UTF8 = ptype p) || (size <? n)) eqn:Harr; [|discriminate].
  injection Hk as <-.
  pose proof (Z.div_mod n size ltac:(lia)) as Hdm.
  pose proof (Z.mod_pos_bound n size Hs) as Hmb.
  split; [nia|]. split.
  - intros Hne. rewrite bool_decide_eq_false_2 in Harr by congruence.
    cbn [orb] in Harr. apply Z.ltb_lt in Harr.
    apply Z.div_le_lower_bound; lia.
  - intros H0.
    destruct (decide (UTF8 = ptype p)) as [Hu|Hu].
    + split; [congruence|].
      assert (size = 1) by (unfold size; rewrite <- Hu; reflexivity).
      assert (n = 0) by nia.
      unfold n, len in *. destruct (value p); [reflexivity|cbn in *; lia].
    + rewrite bool_decide_eq_false_2 in Harr by assumption.
      cbn [orb] in Harr. apply Z.ltb_lt in Harr.
      assert (1 <= n / size) by (apply Z.div_le_lower_bound; lia). lia.
Qed.

Lemma begin_parameter_matrix_dim_floor_witness :
  matrix_dim (measurement_of no_float LE sample_ragged) = Some 2
  /\ 2 * get_type_size (ptype sample_ragged) <= len (value sample_ragged)
       < (2 + 1) * get_type_size (ptype sample_ragged).
Proof.
  split; [reflexivity|].
  apply (begin_parameter_matrix_dim_floor no_float sample_ragged sample_model sample_options
           None sample_block []); [discriminate|reflexivity|reflexivity].
Defined.

(** ** The block header and the other hooks *)

(** X8: of a block, [begin_block] reads the name, the address and whether
    there is a header, nothing else: neither the contents of the header
    nor the byte order nor the parameters have any effect. *)
Theorem begin_block_reads (repr_float : float -> text) (b1 b2 : Block) (w : Writer) :
  block_name b1 = block_name b2 ->
  addr b1 = addr b2 ->
  (header b1 = None <-> header b2 = None) ->
  begin_block repr_float b1 w = begin_block repr_float b2 w.
Proof.
  intros Hn Ha Hh. unfold begin_block. rewrite Hn, Ha.
  destruct (header b1) as [h1|], (header b2) as [h2|]; try reflexivity.
  - destruct Hh as [_ Hh]. discriminate (Hh eq_refl).
  - destruct Hh as [Hh _]. discriminate (Hh eq_refl).
Qed.

Lemma begin_block_reads_witness :
  begin_block no_float
    {| addr := 0x8000; block_name := str "cal"; endianess := BE;
       header := Some {| block_id := 9; major := 7; minor := 7; dataver := 0;
                         data_length := 16 |};
       parameter := [] |}
    (mkWriter sample_model_hdr sample_options None None (Open []))
  = begin_block no_float sample_block_hdr
      (mkWriter sample_model_hdr sample_options None None (Open [])).
Proof.
  apply (begin_block_reads no_float _ sample_block_hdr); [reflexivity|reflexivity|].
  split; discriminate.
Defined.





(** X10: the hooks on an emitter whose file is not open. Fresh from
    [__init__], every hook that writes raises [AttributeError]; after
    [post_run] has closed the file it raises [ValueError], so a second
    [post_run] fails. In both cases the emitter is unchanged. Only
    [begin_block] on a block without header returns, as it writes
    nothing. *)
Theorem hooks_need_open_file (repr_float : float -> text) (w : Writer)
    (k : Container) (b : Block) (p : Param) :
  (forall c, a2l_file w <> Open c) ->
  let e := match a2l_file w with
           | Closed _ => ValueError
           | _ => AttributeError
           end in
  begin_container k w = (w, Raise e)
  /\ end_container k w = (w, Raise e)
  /\ (header b <> None -> begin_block repr_float b w = (w, Raise e))
  /\ (header b = None -> begin_block repr_float b w = (w, Ok tt))
  /\ begin_parameter repr_float p w = (w, Raise e)
  /\ post_run w = (w, Raise e).
Proof.
  intros Hf. destruct w as [m o cc cb [|c|c]]; cbn [a2l_file] in *;
    [|exfalso; apply (Hf c); reflexivity|]; cbv zeta;
    (split; [reflexivity|]); (split; [reflexivity|]);
    (split; [intros Hh; unfold begin_block; destruct (header b); [reflexivity|congruence]|]);
    (split; [intros Hh; unfold begin_block; rewrite Hh; reflexivity|]);
    (split; [rewrite begin_parameter_spec; reflexivity|reflexivity]).
Qed.

Lemma hooks_need_open_file_witness :
  post_run (post_run (mkWriter sample_model sample_options None None (Open []))).1
  = ((post_run (mkWriter sample_model sample_options None None (Open []))).1,
     Raise ValueError)
  /\ begin_parameter no_float sample_P1 (init sample_model sample_options)
     = (init sample_model sample_options, Raise AttributeError).
Proof.
  split.
  - apply (hooks_need_open_file no_float
             (post_run (mkWriter sample_model sample_options None None (Open []))).1
             {| container_name := []; blocks := [] |} sample_block sample_P1).
    discriminate.
  - apply (hooks_need_open_file no_float (init sample_model sample_options)
             {| container_name := []; blocks := [] |} sample_block sample_P1).
    discriminate.
Defined.

(** ** What the emitter leaves alone *)

Lemma keeps_ret {A} (a : A) : keeps_inputs (mret a).
Proof. intros w. split; reflexivity. Qed.

Lemma keeps_raise {A} (e : pyerror) : keeps_inputs (raise e : M A).
Proof. intros w. split; reflexivity. Qed.

Lemma keeps_bind {A B} (x : M A) (f : A -> M B) :
  keeps_inputs x -> (forall a, keeps_inputs (f a)) -> keeps_inputs (x ≫= f).
Proof.
  intros Hx Hf w. specialize (Hx w). unfold mbind, M_bind.
  destruct (x w) as [w' [a|e]]; cbn [fst] in *; [|exact Hx].
  destruct (Hf a w') as [H1 H2]. destruct Hx as [H3 H4].
  split; congruence.
Qed.

Lemma keeps_reads {A} (f : Writer -> A) : keeps_inputs (reads f).
Proof. intros w. split; reflexivity. Qed.

Lemma keeps_write (t : text) : keeps_inputs (write t).
Proof. intros [m o cc cb [|c|c]]; split; reflexivity. Qed.

Lemma keeps_close : keeps_inputs close.
Proof. intros [m o cc cb [|c|c]]; split; reflexivity. Qed.

Lemma keeps_set_a2l_file (f : File) : keeps_inputs (modify (set_a2l_file f)).
Proof. intros w. split; reflexivity. Qed.

Lemma keeps_set_ctx_container (c : Container) : keeps_inputs (modify (set_ctx_container c)).
Proof. intros w. split; reflexivity. Qed.

Lemma keeps_set_ctx_block (b : Block) : keeps_inputs (modify (set_ctx_block b)).
Proof. intros w. split; reflexivity. Qed.

Lemma keeps_for_each {A} (body : A -> M unit) (l : list A) :
  (forall x, keeps_inputs (body x)) -> keeps_inputs (for_each body l).
Proof.
  intros Hbody. induction l as [|x l IH]; cbn [for_each].
  - apply keeps_ret.
  - apply keeps_bind; [apply Hbody|intros _; exact IH].
Qed.

Lemma extends_refl (f : File) : extends f f.
Proof. destruct f as [|c|c]; cbn; try exact I; try reflexivity. exists []. symmetry. apply app_nil_r. Qed.

Lemma extends_trans (f g h : File) : extends f g -> extends g h -> extends f h.
Proof.
  destruct f as [|c|c], g as [|c'|c'], h as [|c''|c'']; cbn; try contradiction; try tauto.
  - intros [t ->] [t' ->]. exists (t ++ t'). symmetry. apply app_assoc.
  - intros [t ->] [t' ->]. exists (t ++ t'). symmetry. apply app_assoc.
  - intros [t ->] ->. exists t. reflexivity.
  - congruence.
Qed.

Lemma appends_ret {A} (a : A) : append_only (mret a).
Proof. intros w. apply extends_refl. Qed.

Lemma appends_raise {A} (e : pyerror) : append_only (raise e : M A).
Proof. intros w. apply extends_refl. Qed.

Lemma appends_bind {A B} (x : M A) (f : A -> M B) :
  append_only x -> (forall a, append_only (f a)) -> append_only (x ≫= f).
Proof.
  intros Hx Hf w. specialize (Hx w). unfold mbind, M_bind.
  destruct (x w) as [w' [a|e]]; cbn [fst] in *; [|exact Hx].
  apply (extends_trans _ _ _ Hx), Hf.
Qed.

Lemma appends_reads {A} (f : Writer -> A) : append_only (reads f).
Proof. intros w. apply extends_refl. Qed.

Lemma appends_write (t : text) : append_only (write t).
Proof.
  intros [m o cc cb [|c|c]]; cbn; try exact I; try reflexivity. exists t. reflexivity.
Qed.

Lemma appends_close : append_only close.
Proof.
  intros [m o cc cb [|c|c]]; cbn; try exact I; try reflexivity.
  exists []. symmetry. apply app_nil_r.
Qed.

Lemma appends_set_ctx_container (c : Container) : append_only (modify (set_ctx_container c)).
Proof. intros w. apply extends_refl. Qed.

Lemma appends_set_ctx_block (b : Block) : append_only (modify (set_ctx_block b)).
Proof. intros w. apply extends_refl. Qed.

Lemma appends_for_each {A} (body : A -> M unit) (l : list A) :
  (forall x, append_only (body x)) -> append_only (for_each body l).
Proof.
  intros Hbody. induction l as [|x l IH]; cbn [for_each].
  - apply appends_ret.
  - apply appends_bind; [apply Hbody|intros _; exact IH].
Qed.

Ltac frame_steps :=
  repeat first
    [ apply keeps_for_each; intros ?
    | apply appends_for_each; intros ?
    | apply keeps_ret | apply keeps_raise | apply keeps_reads | apply keeps_write
    | apply keeps_close | apply keeps_set_a2l_file | apply keeps_set_ctx_container
    | apply keeps_set_ctx_block
    | apply appends_ret | apply appends_raise | apply appends_reads | apply appends_write
    | apply appends_close | apply appends_set_ctx_container | apply appends_set_ctx_block
    | match goal with
      | |- keeps_inputs (match ?x with _ => _ end) => destruct x
      | |- append_only (match ?x with _ => _ end) => destruct x
      end
    | apply keeps_bind; [|intros ?]
    | apply appends_bind; [|intros ?] ].

(** X11: no hook changes the model or the options, whatever the state
    and whether it returns or raises; neither does a whole run. *)
Theorem emitter_keeps_inputs (repr_float : float -> text) :
  keeps_inputs pre_run
  /\ (forall c, keeps_inputs (begin_container c))
  /\ (forall c, keeps_inputs (end_container c))
  /\ (forall b, keeps_inputs (begin_block repr_float b))
  /\ (forall p, keeps_inputs (begin_parameter repr_float p))
  /\ keeps_inputs post_run
  /\ keeps_inputs (run repr_float).
Proof.
  assert (Hpre : keeps_inputs pre_run).
  { unfold pre_run, options_get, py_add_str, joinpath_open. frame_steps. }
  assert (Hbc : forall c, keeps_inputs (begin_container c)).
  { intros c. unfold begin_container. frame_steps. }
  assert (Hec : forall c, keeps_inputs (end_container c)).
  { intros c. unfold end_container. frame_steps. }
  assert (Hbb : forall b, keeps_inputs (begin_block repr_float b)).
  { intros b. unfold begin_block, subscript. frame_steps. }
  assert (Hbp : forall p, keeps_inputs (begin_parameter repr_float p)).
  { intros p. unfold begin_parameter, ctx_block_endianess, subscript, index0, py_int_truediv.
    frame_steps. }
  assert (Hpost : keeps_inputs post_run).
  { unfold post_run. frame_steps. }
  split; [exact Hpre|]. split; [exact Hbc|]. split; [exact Hec|].
  split; [exact Hbb|]. split; [exact Hbp|]. split; [exact Hpost|].
  unfold run, end_block.
  repeat first
    [ exact Hpre | exact Hpost | apply Hbc | apply Hec | apply Hbb | apply Hbp
    | apply keeps_for_each; intros ?
    | apply keeps_ret | apply keeps_reads
    | apply keeps_set_ctx_container | apply keeps_set_ctx_block
    | apply keeps_bind; [|intros ?] ].
Qed.

(** X12: on an open file every hook other than [pre_run] only appends:
    what was written stays as it is, whether the hook returns or raises,
    and so through the whole traversal, which at most closes the file at
    its end. A closed file and a missing file are left as they are. *)
Theorem emitter_append_only (repr_float : float -> text) :
  (forall c, append_only (begin_container c))
  /\ (forall c, append_only (end_container c))
  /\ (forall b, append_only (begin_block repr_float b))
  /\ (forall p, append_only (begin_parameter repr_float p))
  /\ append_only post_run
  /\ append_only (walk repr_float).
Proof.
  assert (Hbc : forall c, append_only (begin_container c)).
  { intros c. unfold begin_container. frame_steps. }
  assert (Hec : forall c, append_only (end_container c)).
  { intros c. unfold end_container. frame_steps. }
  assert (Hbb : forall b, append_only (begin_block repr_float b)).
  { intros b. unfold begin_block, subscript. frame_steps. }
  assert (Hbp : forall p, append_only (begin_parameter repr_float p)).
  { intros p. unfold begin_parameter, ctx_block_endianess, subscript, index0, py_int_truediv.
    frame_steps. }
  assert (Hpost : append_only post_run).
  { unfold post_run. frame_steps. }
  split; [exact Hbc|]. split; [exact Hec|].
  split; [exact Hbb|]. split; [exact Hbp|]. split; [exact Hpost|].
  unfold walk, end_block.
  repeat first
    [ exact Hpost | apply Hbc | apply Hec | apply Hbb | apply Hbp
    | apply appends_for_each; intros ?
    | apply appends_ret | apply appends_reads
    | apply appends_set_ctx_container | apply appends_set_ctx_block
    | apply appends_bind; [|intros ?] ].
Qed.
